(** * smc-python: rule elements, resource accessors and element builders

    A shallow embedding of the parts of [smc.policy.rule_elements],
    [smc.policy.policy], [smc.core.engine], [smc.core.node] and
    [smc.elements.element] that carry logic of their own, together with the
    properties they satisfy.

    Python objects are mutable and Python calls may raise, so every method
    is a computation in a state-and-exception monad: it takes the store it
    mutates and gives back an outcome (a value or a raised exception)
    together with the store as it is left, also when it raises. *)

From Stdlib Require Import ZArith.
From stdpp Require Import base strings list gmap fin_maps pretty.

Open Scope string_scope.

Set Warnings "-register-all".
Set Default Proof Using "Type".

(** ** Python values and exceptions *)

(** JSON-like values held by the [data] dictionaries. *)
Inductive value : Type :=
  | VNone
  | VBool (b : bool)
  | VInt (z : Z)
  | VStr (s : string)
  | VList (items : list value)
  | VDict (fields : list (string * value)).

(** Python truthiness ([if x:], [not x]). *)
Definition truthy (v : value) : bool :=
  match v with
  | VNone => false
  | VBool b => b
  | VInt z => negb (Z.eqb z 0)
  | VStr s => negb (String.eqb s "")
  | VList items => match items with [] => false | _ => true end
  | VDict fields => match fields with [] => false | _ => true end
  end.

(** [d.get(k)]: the value, or Python's [None] when the key is absent. *)
Definition dict_get (d : gmap string value) (k : string) : value :=
  default VNone (d !! k).

(** [v in l] for a list [l] of string literals: only an equal string is a
    member, a value of any other type compares unequal to every string. *)
Definition value_in (v : value) (l : list string) : bool :=
  match v with
  | VStr s => bool_decide (s ∈ l)
  | _ => false
  end.

(** The exception classes the modelled code raises or catches. *)
Inductive exn : Type :=
  | KeyError (key : value)
  | AttributeError
  | TypeError
  | ElementNotFound
  | ResourceNotFound
  | UnsupportedEngineFeature (msg : string)
  | NodeCommandFailed (msg : string)
  | LicenseError (msg : string)
  | LoadEngineFailed (msg : string)
  | OtherError (msg : string).

Definition is_ElementNotFound (e : exn) : bool :=
  match e with ElementNotFound => true | _ => false end.

Definition is_ResourceNotFound (e : exn) : bool :=
  match e with ResourceNotFound => true | _ => false end.

(** ** The state-and-exception monad *)

Inductive outcome (A : Type) : Type :=
  | Return (a : A)
  | Raise (e : exn).
Arguments Return {A} a.
Arguments Raise {A} e.

Definition M (S A : Type) : Type := S -> outcome A * S.

Definition ret {S A} (a : A) : M S A := fun s => (Return a, s).

Definition raise {S A} (e : exn) : M S A := fun s => (Raise e, s).

Definition bind {S A B} (m : M S A) (k : A -> M S B) : M S B :=
  fun s =>
    match m s with
    | (Return a, s') => k a s'
    | (Raise e, s') => (Raise e, s')
    end.

Definition get {S} : M S S := fun s => (Return s, s).

Definition put {S} (s : S) : M S unit := fun _ => (Return tt, s).

Definition modify {S} (f : S -> S) : M S unit := fun s => (Return tt, f s).

(** [try: m  except E: h], where [handles] recognises the class [E].
    The handler runs in the store left by [m]. *)
Definition try_except {S A} (m : M S A) (handles : exn -> bool) (h : exn -> M S A)
  : M S A :=
  fun s =>
    match m s with
    | (Return a, s') => (Return a, s')
    | (Raise e, s') => if handles e then h e s' else (Raise e, s')
    end.

(** A computation that only reads the outside world and has an outcome. *)
Definition lift {S A} (o : outcome A) : M S A := fun s => (o, s).

Declare Scope py_scope.
Delimit Scope py_scope with py.
Notation "x <- m ;; k" := (bind m (fun x => k))
  (at level 100, m at next level, right associativity) : py_scope.
Notation "m ;; k" := (bind m (fun _ => k))
  (at level 100, right associativity) : py_scope.
Open Scope py_scope.
Open Scope list_scope.

Definition result_of {S A} (r : outcome A * S) : outcome A := fst r.
Definition store_of {S A} (r : outcome A * S) : S := snd r.

(** [[element for element in x]]: iterating a list gives its items, a
    string its one-character strings, a dict its keys; the other values
    are not iterable. *)
Fixpoint chars (s : string) : list value :=
  match s with
  | EmptyString => []
  | String c s' => VStr (String c EmptyString) :: chars s'
  end.

Definition iterate {S} (v : value) : M S (list value) :=
  match v with
  | VList items => ret items
  | VStr s => ret (chars s)
  | VDict fields => ret (map (fun kv => VStr (fst kv)) fields)
  | _ => raise TypeError
  end.

(** ** smc.policy.rule_elements: Source, Destination, Service *)

Module RuleElement.

(** The three subclasses differ in their [typeof] class attribute only. *)
Inductive field : Type := Source | Destination | Service.

Definition typeof (f : field) : string :=
  match f with
  | Source => "src"
  | Destination => "dst"
  | Service => "service"
  end.

(** An [Element] argument is seen through its [href] property, which
    resolves the element on the server and raises when that fails. *)
Record Element : Type := { elem_name : string; elem_href : outcome value }.

(** An argument of [add]: an [Element] instance, or anything else, which
    is taken to be an href and stored as it is. *)
Inductive entry : Type :=
  | EElement (e : Element)
  | EHref (h : value).

Definition store : Type := gmap string value.

(** [__init__(self, data=None)] *)
Definition init (data : option (gmap string value)) : gmap string value :=
  match data with
  | None => {[ "none" := VBool true ]}
  | Some d => d
  end.

Definition is_any (d : gmap string value) : bool :=
  bool_decide (is_Some (d !! "any")).

Definition is_none (d : gmap string value) : bool :=
  bool_decide (is_Some (d !! "none")).

Definition set_any : M (gmap string value) unit :=
  modify (fun _ => ∅) ;;
  modify (fun d => <[ "any" := VBool true ]> d).

Definition set_none : M (gmap string value) unit :=
  modify (fun _ => ∅) ;;
  modify (fun d => <[ "none" := VBool true ]> d).

(** [if self.is_none or self.is_any: self.data.clear();
     self.data[self.typeof] = []] *)
Definition reset_markers (f : field) : M (gmap string value) unit :=
  d <- get ;;
  if is_none d || is_any d then
    modify (fun _ => ∅) ;;
    modify (fun d => <[ typeof f := VList [] ]> d)
  else ret tt.

(** [self.data[self.typeof].append(arg)]: the subscript is evaluated first
    (KeyError), then the [append] attribute (AttributeError on anything
    but a list), then the argument, and only then is the list extended. *)
Definition append (f : field) (arg : M (gmap string value) value)
  : M (gmap string value) unit :=
  d <- get ;;
  match d !! typeof f with
  | None => raise (KeyError (VStr (typeof f)))
  | Some (VList items) =>
      x <- arg ;;
      modify (fun d => <[ typeof f := VList (items ++ [x]) ]> d)
  | Some _ => raise AttributeError
  end.

Definition add_entry (f : field) (data : entry) : M (gmap string value) unit :=
  match data with
  | EElement e =>
      try_except (append f (lift (elem_href e))) is_ElementNotFound
                 (fun _ => ret tt)
  | EHref h => append f (ret h)
  end.

Definition add (f : field) (data : entry) : M (gmap string value) unit :=
  reset_markers f ;;
  add_entry f data.

(** The [for e in data] loop of [add_many]; [continue] in the handler and
    falling out of the [try] both go on with the next entry. *)
Fixpoint add_many_loop (f : field) (data : list entry)
  : M (gmap string value) unit :=
  match data with
  | [] => ret tt
  | e :: rest => add_entry f e ;; add_many_loop f rest
  end.

(** The argument is a Python list, so the [assert isinstance(data, list)]
    that opens the method holds. *)
Definition add_many (f : field) (data : list entry) : M (gmap string value) unit :=
  reset_markers f ;;
  add_many_loop f data.

(** [self.data[k]] *)
Definition subscript (k : string) : M (gmap string value) value :=
  d <- get ;;
  match d !! k with
  | Some v => ret v
  | None => raise (KeyError (VStr k))
  end.

(** [all_as_href]: the method has no [return] on the other branch, so it
    gives Python's [None] there; [None] here stands for it. *)
Definition all_as_href (f : field) : M (gmap string value) (option (list value)) :=
  d <- get ;;
  if negb (is_any d) && negb (is_none d) then
    v <- subscript (typeof f) ;;
    items <- iterate v ;;
    ret (Some items)
  else ret None.

Section All.
(** [Element.from_href], which is not part of this module: it maps an
    href to the element it resolves to, or raises. *)
Context {Obj : Type}.
Variable from_href : value -> outcome Obj.

Fixpoint comprehension (hrefs : list value) : M (gmap string value) (list Obj) :=
  match hrefs with
  | [] => ret []
  | h :: rest =>
      o <- lift (from_href h) ;;
      os <- comprehension rest ;;
      ret (o :: os)
  end.

Definition all (f : field) : M (gmap string value) (list Obj) :=
  d <- get ;;
  if negb (is_any d) && negb (is_none d) then
    v <- subscript (typeof f) ;;
    items <- iterate v ;;
    comprehension items
  else ret [].
End All.

(** The three variants of a rule field and the dictionaries that stand
    for them. *)
Inductive variant : Type :=
  | Any
  | NoneV
  | Enumerated (refs : list value).

Definition encode (f : field) (v : variant) : gmap string value :=
  match v with
  | Any => {[ "any" := VBool true ]}
  | NoneV => {[ "none" := VBool true ]}
  | Enumerated refs => {[ typeof f := VList refs ]}
  end.

(** A variant is active when its key is in the dictionary. *)
Definition is_enumerated (f : field) (d : gmap string value) : bool :=
  bool_decide (is_Some (d !! typeof f)).

Definition active_variants (f : field) (d : gmap string value) : nat :=
  Nat.b2n (is_any d) + Nat.b2n (is_none d) + Nat.b2n (is_enumerated f d).

Definition one_variant (f : field) (d : gmap string value) : Prop :=
  active_variants f d = 1.

(** A dictionary holding the reference list and no marker. *)
Definition listing (f : field) (d : gmap string value) : Prop :=
  is_any d = false ∧ is_none d = false ∧ is_enumerated f d = true.

(** The references a field holds: none under a marker, the stored list
    otherwise. *)
Definition stored (f : field) (d : gmap string value) : list value :=
  if is_none d || is_any d then []
  else match d !! typeof f with
       | Some (VList items) => items
       | _ => []
       end.

(** The field is in one of its three shapes: a marker, or a list under
    its [typeof] key. *)
Definition well_formed (f : field) (d : gmap string value) : Prop :=
  is_none d || is_any d = true ∨ ∃ items, d !! typeof f = Some (VList items).

(** The hrefs a list of arguments contributes: an href as it is, an
    element through its lookup, nothing for an element whose lookup
    raises. *)
Definition resolved (data : list entry) : list value :=
  omap (fun e =>
          match e with
          | EHref h => Some h
          | EElement el =>
              match elem_href el with
              | Return h => Some h
              | Raise _ => None
              end
          end) data.

(** The only way the lookup of an element argument fails is
    [ElementNotFound]. *)
Definition fails_by_not_found (e : entry) : Prop :=
  match e with
  | EHref _ => True
  | EElement el =>
      match elem_href el with
      | Return _ => True
      | Raise x => x = ElementNotFound
      end
  end.

End RuleElement.

(** ** smc.policy.rule_elements: Action and LogOptions *)

Module Action.

(** [ConnectionTracking()()] with no data. *)
Definition connection_tracking_default : list (string * value) :=
  [("connection_tracking_options",
    VDict [("mss_enforced", VBool false);
           ("mss_enforced_max", VInt 0);
           ("mss_enforced_min", VInt 0);
           ("timeout", VInt (-1))])].

(** [__init__(self, data=None, actions=None)]: the data dictionary and
    the list [_actions] of actions the rule makes available. *)
Definition init (data : option (gmap string value)) (actions : option (list string))
  : gmap string value * list string :=
  (match data with
   | None =>
       <[ "scan_detection" := VStr "undefined" ]>
         (list_to_map connection_tracking_default ∪ {[ "action" := VStr "allow" ]})
   | Some d => d
   end,
   match actions with None => [] | Some l => l end).

Definition action (d : gmap string value) : value := dict_get d "action".

Definition set_action (_actions : list string) (v : value)
  : M (gmap string value) unit :=
  if value_in v _actions then modify (fun d => <[ "action" := v ]> d)
  else ret tt.

Definition scan_detection (d : gmap string value) : value :=
  dict_get d "scan_detection".

Definition set_scan_detection (v : value) : M (gmap string value) unit :=
  if value_in v ["on"; "off"; "undefined"] then
    modify (fun d => <[ "scan_detection" := v ]> d)
  else ret tt.

End Action.

Module LogOptions.

Definition init (data : option (gmap string value)) : gmap string value :=
  match data with
  | None =>
      list_to_map
        [("log_accounting_info_mode", VBool false);
         ("log_closing_mode", VBool true);
         ("log_level", VStr "undefined");
         ("log_payload_additionnal", VBool false);
         ("log_payload_excerpt", VBool false);
         ("log_payload_record", VBool false);
         ("log_severity", VInt (-1))]
  | Some d => d
  end.

Definition set_application_logging (v : value) : M (gmap string value) unit :=
  if value_in v ["off"; "default"; "enforced"] then
    modify (fun d => <[ "application_logging" := v ]> d)
  else ret tt.

Definition log_accounting_info_mode (d : gmap string value) : value :=
  dict_get d "log_accounting_info_mode".

Definition set_log_accounting_info_mode (v : value) : M (gmap string value) unit :=
  modify (fun d => <[ "log_accounting_info_mode" := v ]> d).

Definition log_level (d : gmap string value) : value := dict_get d "log_level".

(** The second [if] of the setter is not nested in the first: it runs
    whatever the value was. *)
Definition set_log_level (v : value) : M (gmap string value) unit :=
  (if value_in v ["none"; "stored"; "transient"; "essential"; "alert"] then
     modify (fun d => <[ "log_level" := v ]> d)
   else ret tt) ;;
  d <- get ;;
  if negb (truthy (log_accounting_info_mode d)) then
    set_log_accounting_info_mode (VBool true)
  else ret tt.

Definition set_user_logging (v : value) : M (gmap string value) unit :=
  if value_in v ["true"; "false"; "enforced"] then
    modify (fun d => <[ "user_logging" := v ]> d)
  else ret tt.

End LogOptions.

(** ** Resources reached through links: smc.base.model *)

Module Model.

(** [Meta]: the name, href and type tag a resource is addressed by. *)
Record Meta : Type := { meta_name : value; meta_href : string; meta_type : string }.

(** The HTTP verb behind [create], [read], [update] and [delete] of a
    prepared request. *)
Inductive verb : Type := Create | Read | Update | Delete.

Record SMCResult : Type := { json : value; content : value }.

(** Modelled from the spec: the link lookup [_link] of [smc.base.model],
    which this repository's resources inherit. It "looks up relation in
    the current links mapping" and fails when "the relation is absent";
    the failure is the [ResourceNotFound] that every accessor in
    [smc.core] catches around it. The links are the [rel]/[href] pairs of
    the loaded representation, in the order the server sent them. *)
Fixpoint find_link_by_name (rel : string) (links : list (string * string))
  : option string :=
  match links with
  | [] => None
  | (r, href) :: rest =>
      if String.eqb r rel then Some href else find_link_by_name rel rest
  end.

Definition _link {S} (links : list (string * string)) (rel : string) : M S string :=
  match find_link_by_name rel links with
  | Some href => ret href
  | None => raise ResourceNotFound
  end.

(** [d.get(k)] on a dictionary held as a value. *)
Fixpoint assoc_get (k : string) (fields : list (string * value)) : value :=
  match fields with
  | [] => VNone
  | (k', v) :: rest => if String.eqb k' k then v else assoc_get k rest
  end.

Definition value_get {S} (v : value) (k : string) : M S value :=
  match v with
  | VDict fields => ret (assoc_get k fields)
  | _ => raise AttributeError
  end.

(** [x.pop()]: the last item of a list, which must not be empty. *)
Definition value_pop {S} (v : value) : M S value :=
  match v with
  | VList items =>
      match last items with
      | Some x => ret x
      | None => raise (OtherError "IndexError")
      end
  | VDict _ => raise TypeError
  | _ => raise AttributeError
  end.

Section Transport.
(** The collaborators behind the resources: the state of the server and
    of the session ([World]), a prepared request
    [prepared_request(exception, href=, params=, json=)] carried out with
    one of the four verbs, the GET of [_get_resource], and the
    construction of a [Meta] from a dictionary of keyword arguments. *)
Context {World : Type}.
Variable prepared_request :
  option (string -> exn) -> string -> list (string * value) -> value ->
  verb -> M World SMCResult.
Variable _get_resource : string -> M World value.
Variable Meta_kwargs : value -> outcome Meta.

(** Modelled from the spec: [_get_resource_by_link] of [smc.base.model],
    a "thin composition" of the link lookup and the fetch. *)
Definition _get_resource_by_link (links : list (string * string)) (rel : string)
  : M World value :=
  href <- _link links rel ;;
  _get_resource href.

(** *** smc.core.engine: Engine *)

Record Engine : Type := {
  engine_name : string;
  engine_meta : option Meta;
  engine_link : list (string * string)
}.

Record InternalGateway : Type := { gateway_meta : Meta }.

(** [Engine.load], which fills in [meta] through the search helpers. *)
Variable load : Engine -> M World Engine.

(** The [type] property: [if not self.meta: self.load()] and then
    [self.meta.type]. *)
Definition engine_type (e : Engine) : M World string :=
  e' <- (match engine_meta e with
         | Some _ => ret e
         | None => load e
         end) ;;
  match engine_meta e' with
  | Some m => ret (meta_type m)
  | None => raise AttributeError
  end.

(** The property gives [None] when the resource is there but empty. *)
Definition internal_gateway (e : Engine) : M World (option InternalGateway) :=
  try_except
    (result <- _get_resource_by_link (engine_link e) "internal_gateway" ;;
     if truthy result then
       last_item <- value_pop result ;;
       m <- lift (Meta_kwargs last_item) ;;
       ret (Some {| gateway_meta := m |})
     else ret None)
    is_ResourceNotFound
    (fun _ =>
       t <- engine_type e ;;
       raise (UnsupportedEngineFeature
                ("This engine does not support an internal "
                 ++ "gateway for VPN, engine type: " ++ t))).

(** *** smc.core.node: Node *)

Record Node : Type := {
  node_meta : Meta;
  node_link : list (string * string)
}.

Definition node_type (n : Node) : string := meta_type (node_meta n).

Definition fetch_license (n : Node) : M World unit :=
  try_except
    (href <- _link (node_link n) "fetch" ;;
     prepared_request (Some LicenseError) href [] VNone Create ;;
     ret tt)
    is_ResourceNotFound
    (fun _ => ret tt).

Definition bind_license (n : Node) (license_item_id : value) : M World unit :=
  let params := [("license_item_id", license_item_id)] in
  try_except
    (href <- _link (node_link n) "bind" ;;
     prepared_request (Some LicenseError) href params VNone Create ;;
     ret tt)
    is_ResourceNotFound
    (fun _ => ret tt).

Definition unbind_license (n : Node) : M World unit :=
  try_except
    (href <- _link (node_link n) "unbind" ;;
     prepared_request (Some LicenseError) href [] VNone Create ;;
     ret tt)
    is_ResourceNotFound
    (fun _ => ret tt).

Definition cancel_unbind_license (n : Node) : M World unit :=
  try_except
    (href <- _link (node_link n) "cancel_unbind" ;;
     prepared_request (Some LicenseError) href [] VNone Create ;;
     ret tt)
    is_ResourceNotFound
    (fun _ => ret tt).

Definition ssh (n : Node) (enable comment : value) : M World unit :=
  let params := [("enable", enable); ("comment", comment)] in
  try_except
    (href <- _link (node_link n) "ssh" ;;
     prepared_request (Some NodeCommandFailed) href params VNone Update ;;
     ret tt)
    is_ResourceNotFound
    (fun _ =>
       raise (NodeCommandFailed
                ("SSH not supported on this node type: " +:+ node_type n))).

(** *** smc.policy.policy: Policy.search_rule *)

(** The registry of [smc.base.resource]: classes by type tag. *)
Context {Klass : Type}.
Variable Registry : gmap string Klass.

(** [Registry[key]] *)
Definition registry_item (key : value) : M World Klass :=
  match key with
  | VStr s =>
      match Registry !! s with
      | Some klazz => ret klazz
      | None => raise (KeyError key)
      end
  | VList _ | VDict _ => raise TypeError
  | _ => raise (KeyError key)
  end.

(** An instance [klazz(meta=m)]. *)
Record Rule : Type := { rule_class : Klass; rule_meta : Meta }.

(** [data.get('type') == tag] *)
Definition type_is (t : value) (tag : string) : bool :=
  match t with
  | VStr s => String.eqb s tag
  | _ => false
  end.

(** The body of [for data in result.json], run on the entries still
    to visit. [return results] is the last statement of the body, so the
    first entry ends the method ([Some]) and the rest are not visited;
    [None] is the loop running out of entries. *)
Definition search_rule_loop (results : list Rule) (entries : list value)
  : M World (option (list Rule)) :=
  match entries with
  | [] => ret None
  | data :: _ =>
      t <- value_get data "type" ;;
      klazz <- (if type_is t "ips_ethernet_rule" then
                  registry_item (VStr "ethernet_rule")
                else if type_is t "ips_ipv4_access_rule" then
                  registry_item (VStr "layer2_ipv4_access_rule")
                else
                  t' <- value_get data "type" ;;
                  registry_item t') ;;
      m <- lift (Meta_kwargs data) ;;
      ret (Some (results ++ [{| rule_class := klazz; rule_meta := m |}]))
  end.

Definition search_rule (policy_link : list (string * string)) (search : value)
  : M World (list Rule) :=
  href <- _link policy_link "search_rule" ;;
  result <- prepared_request None href [("filter", search)] VNone Read ;;
  if truthy (json result) then
    entries <- iterate (json result) ;;
    returned <- search_rule_loop [] entries ;;
    match returned with
    | Some results => ret results
    | None => ret []
    end
  else ret [].

End Transport.

End Model.

(** ** smc.elements.element: SMCElement.factory *)

Module SMCElement.

(** The classes of the module: the base class and its subclasses. *)
Inductive class : Type :=
  | SMCElement | Host | Service | Group | IpRange | Router | Network.

#[global] Instance class_eq_dec : EqDecision class.
Proof. solve_decision. Defined.

(** The store of class objects: each class has one attribute dictionary,
    shared by every reference to the class. *)
Definition heap : Type := class -> gmap string value.

(** No class of the module defines data attributes in its body. *)
Definition initial : heap := fun _ => ∅.

(** [cls.attr = v]: the dictionary of [cls] gets the entry, those of the
    other classes stay. *)
Definition assign (cls : class) (attr : string) (v : value) (h : heap) : heap :=
  fun c => if decide (c = cls) then <[ attr := v ]> (h c) else h c.

Definition setattr (cls : class) (attr : string) (v : value) : M heap unit :=
  modify (assign cls attr v).

(** [cls.attr]: the class's own dictionary, then that of its base
    class. *)
Definition getattr (cls : class) (attr : string) : M heap value :=
  h <- get ;;
  match h cls !! attr with
  | Some v => ret v
  | None =>
      match h SMCElement !! attr with
      | Some v => ret v
      | None => raise AttributeError
      end
  end.

(** The arguments of [factory], each [None] by default. *)
Record args : Type := {
  name : value;
  href : value;
  etag : value;
  _type : value;
  json : value;
  params : value
}.

Definition default_args : args :=
  {| name := VNone; href := VNone; etag := VNone;
     _type := VNone; json := VNone; params := VNone |}.

(** A classmethod: [cls] is the class it is called on, and the value
    returned is that class object, not an instance. *)
Definition factory (cls : class) (a : args) : M heap class :=
  setattr cls "name" (name a) ;;
  setattr cls "href" (href a) ;;
  setattr cls "etag" (etag a) ;;
  setattr cls "type" (_type a) ;;
  setattr cls "json" (json a) ;;
  setattr cls "params" (params a) ;;
  ret cls.

(** The attribute names [factory] assigns, with the argument each gets. *)
Definition assigned (a : args) : list (string * value) :=
  [("name", name a); ("href", href a); ("etag", etag a);
   ("type", _type a); ("json", json a); ("params", params a)].

End SMCElement.

(** ** The dispatch of search_rule, as a table *)

Module Dispatch.

(** The registry key for a type tag, as a closed table: the two IPS tags
    go to the classes of the layer 2 rules, every other tag to the class
    registered under it. [Model.search_rule_loop] is compared with it. *)
Definition registry_key (tag : string) : string :=
  if String.eqb tag "ips_ethernet_rule" then "ethernet_rule"
  else if String.eqb tag "ips_ipv4_access_rule" then "layer2_ipv4_access_rule"
  else tag.

End Dispatch.

(** ** A recording server *)

Module Recording.

(** A world that records the hrefs requests are sent to, and a server
    that accepts every request. *)
Definition world : Type := list string.

Definition prepared_request (exception : option (string -> exn)) (href : string)
    (params : list (string * value)) (body : value) (v : Model.verb)
  : M world Model.SMCResult :=
  fun w => (Return {| Model.json := VNone; Model.content := VNone |}, w ++ [href]).

(** A node of a virtual engine: it has a status link and no license
    links. *)
Definition virtual_node : Model.Node :=
  {| Model.node_meta :=
       {| Model.meta_name := VStr "ve-1 node 1";
          Model.meta_href := "http://1.1.1.1/virtual_fw/1/node/1";
          Model.meta_type := "virtual_fw_node" |};
     Model.node_link := [("status", "http://1.1.1.1/virtual_fw/1/node/1/status")] |}.

(** A layer 2 engine, loaded, with no internal gateway. *)
Definition layer2_engine : Model.Engine :=
  {| Model.engine_name := "l2";
     Model.engine_meta :=
       Some {| Model.meta_name := VStr "l2";
               Model.meta_href := "http://1.1.1.1/single_layer2/7";
               Model.meta_type := "single_layer2" |};
     Model.engine_link := [("nodes", "http://1.1.1.1/single_layer2/7/node")] |}.

Definition _get_resource (href : string) : M world value :=
  fun w => (Return (VList []), w ++ [href]).

Definition Meta_kwargs (v : value) : outcome Model.Meta :=
  match v with
  | VDict fields =>
      match Model.assoc_get "href" fields, Model.assoc_get "type" fields with
      | VStr h, VStr t =>
          Return {| Model.meta_name := Model.assoc_get "name" fields;
                    Model.meta_href := h; Model.meta_type := t |}
      | _, _ => Raise TypeError
      end
  | _ => Raise TypeError
  end.

Definition load (e : Model.Engine) : M world Model.Engine :=
  raise (LoadEngineFailed "Cannot load engine").

(** A policy with a search link, a registry of rule classes by name, and
    a server that answers every request with two matching rules. *)
Definition policy_link : list (string * string) :=
  [("search_rule", "http://1.1.1.1/ips_policy/3/search_rule")].

Definition Registry : gmap string string :=
  list_to_map [("ethernet_rule", "EthernetRule");
               ("layer2_ipv4_access_rule", "IPv4Layer2Rule");
               ("fw_ipv4_access_rule", "IPv4Rule")].

Definition found_rules : list value :=
  [VDict [("name", VStr "Rule @20.0");
          ("href", VStr "http://1.1.1.1/ips_policy/3/ips_ethernet_rule/20");
          ("type", VStr "ips_ethernet_rule")];
   VDict [("name", VStr "Rule @21.0");
          ("href", VStr "http://1.1.1.1/ips_policy/3/ips_ipv4_access_rule/21");
          ("type", VStr "ips_ipv4_access_rule")]].

Definition search_request (exception : option (string -> exn)) (href : string)
    (params : list (string * value)) (body : value) (v : Model.verb)
  : M world Model.SMCResult :=
  fun w => (Return {| Model.json := VList found_rules; Model.content := VNone |},
            w ++ [href]).

End Recording.

(** ** smc.policy.rule_elements: ConnectionTracking *)

Module ConnectionTracking.

Definition init (data : option (gmap string value)) : gmap string value :=
  match data with
  | None =>
      list_to_map
        [("mss_enforced", VBool false);
         ("mss_enforced_max", VInt 0);
         ("mss_enforced_min", VInt 0);
         ("timeout", VInt (-1))]
  | Some d => d
  end.

(** What is assigned to [mss_enforced_min_max]: a tuple, or a value of
    any other type. *)
Inductive assigned : Type :=
  | Tuple (items : list value)
  | Other (v : value).

Definition mss_enforced_min_max (d : gmap string value) : value * value :=
  (dict_get d "mss_enforced_min", dict_get d "mss_enforced_max").

(** [minimum, maximum = value] unpacks before it assigns: a tuple of
    another length raises [ValueError] with nothing stored. *)
Definition set_mss_enforced_min_max (a : assigned) : M (gmap string value) unit :=
  match a with
  | Tuple items =>
      match items with
      | [minimum; maximum] =>
          modify (fun d => <[ "mss_enforced_min" := minimum ]> d) ;;
          modify (fun d => <[ "mss_enforced_max" := maximum ]> d)
      | _ => raise (OtherError "ValueError")
      end
  | Other _ => ret tt
  end.

End ConnectionTracking.

(** ** smc.core.node: the node commands *)

Module NodeCommands.
Import Model.

(** A [Diagnostic] holds the dictionary it was built from. *)
Record Diagnostic : Type := { diagnostic : value }.

(** Building a [Diagnostic] from a dictionary of keyword arguments: the
    constructor has the one parameter [diagnostic], so the dictionary
    must have that key and no other. *)
Definition Diagnostic_kwargs (x : value) : outcome Diagnostic :=
  match x with
  | VDict [(k, d)] =>
      if String.eqb k "diagnostic" then Return {| diagnostic := d |}
      else Raise TypeError
  | _ => Raise TypeError
  end.

(** [vars(setting)] *)
Definition vars (setting : Diagnostic) : value :=
  VDict [("diagnostic", diagnostic setting)].

Section Commands.
Context {World : Type}.
Variable prepared_request :
  option (string -> exn) -> string -> list (string * value) -> value ->
  verb -> M World SMCResult.

(** [save_to_file] of [smc.base.util], and the text of an exception when
    it is an [IOError]. *)
Variable save_to_file : value -> value -> M World unit.
Variable IOError_text : exn -> option string.

Definition initial_contact (n : Node) (enable_ssh filename : value)
  : M World value :=
  try_except
    (href <- _link (node_link n) "initial_contact" ;;
     result <- prepared_request None href [("enable_ssh", enable_ssh)] VNone Create ;;
     (if truthy (content result) then
        if truthy filename then
          try_except
            (save_to_file filename (content result))
            (fun e => bool_decide (is_Some (IOError_text e)))
            (fun e =>
               raise (NodeCommandFailed
                        ("Error occurred when attempting to "
                         +:+ "save initial contact to file: "
                         +:+ default "" (IOError_text e))))
        else ret tt
      else ret tt) ;;
     ret (content result))
    is_ResourceNotFound
    (fun _ => raise (NodeCommandFailed
                       "Initial contact not supported on this node type")).

Definition go_online (n : Node) (comment : value) : M World unit :=
  let params := [("comment", comment)] in
  href <- _link (node_link n) "go_online" ;;
  prepared_request (Some NodeCommandFailed) href params VNone Update ;;
  ret tt.

Definition go_offline (n : Node) (comment : value) : M World unit :=
  let params := [("comment", comment)] in
  href <- _link (node_link n) "go_offline" ;;
  prepared_request (Some NodeCommandFailed) href params VNone Update ;;
  ret tt.

Definition go_standby (n : Node) (comment : value) : M World unit :=
  let params := [("comment", comment)] in
  href <- _link (node_link n) "go_standby" ;;
  prepared_request (Some NodeCommandFailed) href params VNone Update ;;
  ret tt.

Definition lock_online (n : Node) (comment : value) : M World unit :=
  let params := [("comment", comment)] in
  href <- _link (node_link n) "lock_online" ;;
  prepared_request (Some NodeCommandFailed) href params VNone Update ;;
  ret tt.

Definition lock_offline (n : Node) (comment : value) : M World unit :=
  let params := [("comment", comment)] in
  href <- _link (node_link n) "lock_offline" ;;
  prepared_request (Some NodeCommandFailed) href params VNone Update ;;
  ret tt.

Definition reset_user_db (n : Node) (comment : value) : M World unit :=
  let params := [("comment", comment)] in
  try_except
    (href <- _link (node_link n) "reset_user_db" ;;
     prepared_request (Some NodeCommandFailed) href params VNone Update ;;
     ret tt)
    is_ResourceNotFound
    (fun _ => raise (NodeCommandFailed
                       "Reset userdb not supported on this node type")).

(** The comprehension of [diagnostic]. *)
Fixpoint diagnostics_of (entries : list value) : M World (list Diagnostic) :=
  match entries with
  | [] => ret []
  | x :: rest =>
      setting <- lift (Diagnostic_kwargs x) ;;
      settings <- diagnostics_of rest ;;
      ret (setting :: settings)
  end.

Definition diagnostic_list (n : Node) (filter_enabled : value)
  : M World (list Diagnostic) :=
  let params := [("filter_enabled", filter_enabled)] in
  try_except
    (href <- _link (node_link n) "diagnostic" ;;
     result <- prepared_request (Some NodeCommandFailed) href params VNone Read ;;
     found <- value_get (json result) "diagnostics" ;;
     entries <- iterate found ;;
     diagnostics_of entries)
    is_ResourceNotFound
    (fun _ => raise (NodeCommandFailed
                       ("Diagnostic not supported on this node type: "
                        +:+ node_type n))).

(** The loop of [send_diagnostic], which fills [debug]. *)
Fixpoint collect_vars (debug : list value) (settings : list Diagnostic) : list value :=
  match settings with
  | [] => debug
  | setting :: rest => collect_vars (debug ++ [vars setting]) rest
  end.

Definition send_diagnostic (n : Node) (settings : list Diagnostic) : M World unit :=
  let debug := collect_vars [] settings in
  href <- _link (node_link n) "send_diagnostic" ;;
  prepared_request (Some NodeCommandFailed) href []
    (VDict [("diagnostics", VList debug)]) Create ;;
  ret tt.

Definition reboot (n : Node) (comment : value) : M World unit :=
  let params := [("comment", comment)] in
  href <- _link (node_link n) "reboot" ;;
  prepared_request (Some NodeCommandFailed) href params VNone Update ;;
  ret tt.

Definition change_ssh_pwd (n : Node) (pwd comment : value) : M World unit :=
  let params := [("comment", comment)] in
  try_except
    (href <- _link (node_link n) "change_ssh_pwd" ;;
     prepared_request (Some NodeCommandFailed) href params
       (VDict [("value", pwd)]) Update ;;
     ret tt)
    is_ResourceNotFound
    (fun _ => raise (NodeCommandFailed
                       ("Change SSH pwd not supported on this node type: "
                        +:+ node_type n))).

Definition time_sync (n : Node) : M World unit :=
  try_except
    (href <- _link (node_link n) "time_sync" ;;
     prepared_request (Some NodeCommandFailed) href [] VNone Update ;;
     ret tt)
    is_ResourceNotFound
    (fun _ => raise (NodeCommandFailed
                       ("Time sync not supported on this node type: "
                        +:+ node_type n))).

End Commands.

End NodeCommands.

(** ** More of the recording server *)

Module Fixtures.
Import Model.

Definition save_to_file (filename body : value) : M Recording.world unit :=
  raise (OtherError "IOError").

Definition IOError_text (e : exn) : option string :=
  match e with
  | OtherError "IOError" => Some "Permission denied"
  | _ => None
  end.

(** A firewall node with the links of its commands. *)
Definition firewall_node : Node :=
  {| node_meta :=
       {| meta_name := VStr "fw node 1";
          meta_href := "http://1.1.1.1/single_fw/1/node/1";
          meta_type := "firewall_node" |};
     node_link :=
       [("diagnostic", "http://1.1.1.1/single_fw/1/node/1/diagnostic");
        ("send_diagnostic", "http://1.1.1.1/single_fw/1/node/1/send_diagnostic")] |}.

Definition settings : list NodeCommands.Diagnostic :=
  [{| NodeCommands.diagnostic :=
        VDict [("name", VStr "Packet filter"); ("enabled", VBool false)] |};
   {| NodeCommands.diagnostic :=
        VDict [("name", VStr "Protocol Agent"); ("enabled", VBool true)] |}].

(** A server that answers with the two settings above. *)
Definition diagnostic_request (exception : option (string -> exn)) (href : string)
    (params : list (string * value)) (body : value) (v : verb)
  : M Recording.world SMCResult :=
  fun w =>
    (Return {| json := VDict [("diagnostics",
                               VList (map NodeCommands.vars settings))];
               content := VNone |},
     w ++ [href]).

(** A layer 3 engine, loaded, with an internal gateway link; and an
    engine known by name only. *)
Definition layer3_engine : Engine :=
  {| engine_name := "fw";
     engine_meta :=
       Some {| meta_name := VStr "fw";
               meta_href := "http://1.1.1.1/single_fw/1";
               meta_type := "single_fw" |};
     engine_link :=
       [("nodes", "http://1.1.1.1/single_fw/1/node");
        ("internal_gateway", "http://1.1.1.1/single_fw/1/internal_gateway")] |}.

Definition unloaded_engine : Engine :=
  {| engine_name := "gone"; engine_meta := None; engine_link := [] |}.

Definition UnsupportedInterfaceType (msg : string) : exn :=
  OtherError ("UnsupportedInterfaceType: " +:+ msg).

End Fixtures.

(** ** smc.core.engine: the resources of an engine *)

Module EngineResources.
Import Model.

(** The sub-elements the accessors hand back, each built from the href
    of a link alone. *)
Inductive subelement : Type :=
  | VirtualResource (href : string)
  | Interface (href : string)
  | PhysicalInterface (href : string)
  | VirtualPhysicalInterface (href : string)
  | TunnelInterface (href : string).

(** [x[k]] for a string [k]: the entry of a dictionary, [KeyError] when
    it has none; no other value can be subscripted by a string. *)
Fixpoint assoc_find (k : string) (fields : list (string * value)) : option value :=
  match fields with
  | [] => None
  | (k', v) :: rest => if String.eqb k' k then Some v else assoc_find k rest
  end.

Definition value_item {S} (v : value) (k : string) : M S value :=
  match v with
  | VDict fields =>
      match assoc_find k fields with
      | Some x => ret x
      | None => raise (KeyError (VStr k))
      end
  | _ => raise TypeError
  end.

Section Resources.
Context {World : Type}.
Variable _get_resource : string -> M World value.
Variable load : Engine -> M World Engine.
(** [UnsupportedInterfaceType] of [smc.api.exceptions]. *)
Variable UnsupportedInterfaceType : string -> exn.
(** [Element.from_href] *)
Context {Obj : Type}.
Variable from_href : value -> outcome Obj.

Fixpoint elements_of (hrefs : list value) : M World (list Obj) :=
  match hrefs with
  | [] => ret []
  | h :: rest =>
      o <- lift (from_href h) ;;
      os <- elements_of rest ;;
      ret (o :: os)
  end.

Definition permissions (e : Engine) : M World (list Obj) :=
  try_except
    (acls <- _get_resource_by_link _get_resource (engine_link e) "permissions" ;;
     granted <- value_item acls "granted_access_control_list" ;;
     hrefs <- iterate granted ;;
     elements_of hrefs)
    is_ResourceNotFound
    (fun _ =>
       raise (UnsupportedEngineFeature
                ("Engine permissions are only supported "
                 +:+ "when using SMC API version 6.1 and newer."))).

Definition virtual_resource (e : Engine) : M World subelement :=
  try_except
    (href <- _link (engine_link e) "virtual_resources" ;;
     ret (VirtualResource href))
    is_ResourceNotFound
    (fun _ =>
       t <- engine_type load e ;;
       raise (UnsupportedEngineFeature
                ("This engine does not support virtual "
                 +:+ "resources; engine type: " +:+ t))).

Definition interface (e : Engine) : M World subelement :=
  href <- _link (engine_link e) "interfaces" ;;
  ret (Interface href).

Definition physical_interface (e : Engine) : M World subelement :=
  try_except
    (href <- _link (engine_link e) "physical_interface" ;;
     ret (PhysicalInterface href))
    is_ResourceNotFound
    (fun _ =>
       t <- engine_type load e ;;
       raise (UnsupportedInterfaceType
                ("Engine type: " +:+ t +:+ " does not support the "
                 +:+ "physical interface type"))).

Definition virtual_physical_interface (e : Engine) : M World subelement :=
  try_except
    (href <- _link (engine_link e) "virtual_physical_interface" ;;
     ret (VirtualPhysicalInterface href))
    is_ResourceNotFound
    (fun _ =>
       t <- engine_type load e ;;
       raise (UnsupportedInterfaceType
                ("Only virtual engines support the "
                 +:+ "virtual physical interface type. Engine "
                 +:+ "type is: " +:+ t))).

Definition tunnel_interface (e : Engine) : M World subelement :=
  try_except
    (href <- _link (engine_link e) "tunnel_interface" ;;
     ret (TunnelInterface href))
    is_ResourceNotFound
    (fun _ =>
       t <- engine_type load e ;;
       raise (UnsupportedInterfaceType
                ("Tunnel interfaces are only supported on "
                 +:+ "layer 3 single engines or clusters; "
                 +:+ "Engine type is: " +:+ t))).

Definition modem_interface (e : Engine) : M World value :=
  try_except
    (_get_resource_by_link _get_resource (engine_link e) "modem_interface")
    is_ResourceNotFound
    (fun _ =>
       t <- engine_type load e ;;
       raise (UnsupportedInterfaceType
                ("Modem interfaces are not supported "
                 +:+ "on this engine type: " +:+ t))).

Definition adsl_interface (e : Engine) : M World value :=
  try_except
    (_get_resource_by_link _get_resource (engine_link e) "adsl_interface")
    is_ResourceNotFound
    (fun _ =>
       t <- engine_type load e ;;
       raise (UnsupportedInterfaceType
                ("ADSL interfaces are not supported "
                 +:+ "on this engine type: " +:+ t))).

Definition wireless_interface (e : Engine) : M World value :=
  try_except
    (_get_resource_by_link _get_resource (engine_link e) "wireless_interface")
    is_ResourceNotFound
    (fun _ =>
       t <- engine_type load e ;;
       raise (UnsupportedInterfaceType
                ("Wireless interfaces are not supported "
                 +:+ "on this engine type: " +:+ t))).

Definition switch_physical_interface (e : Engine) : M World value :=
  try_except
    (_get_resource_by_link _get_resource (engine_link e) "switch_physical_interface")
    is_ResourceNotFound
    (fun _ =>
       t <- engine_type load e ;;
       raise (UnsupportedInterfaceType
                ("Switch interfaces are not supported "
                 +:+ "on this engine type: " +:+ t))).

End Resources.

End EngineResources.

(** ** smc.core.node and smc.core.engine: the configuration of a new engine *)

Module EngineCreate.

(** [Node.create(name, node_type, nodeid)] *)
Definition Node_create (name node_type : string) (nodeid : Z) : value :=
  VDict [(node_type,
          VDict [("activate_test", VBool true);
                 ("disabled", VBool false);
                 ("loopback_node_dedicated_interface", VList []);
                 ("name", VStr (name +:+ " node " +:+ pretty nodeid));
                 ("nodeid", VInt nodeid)])].

(** The arguments of [Engine.create]. [node_type_is_literal] says whether
    the [node_type] passed is the very string object of the literal
    ['virtual_fw_node'] the method compares it with by [is not]: identity
    of strings is not fixed by their contents. *)
Record arguments : Type := {
  name : string;
  node_type : string;
  node_type_is_literal : bool;
  physical_interfaces : value;
  nodes : Z;
  log_server_ref : value;
  domain_server_address : value;
  enable_antivirus : value;
  enable_gti : value;
  default_nat : value;
  location_ref : value;
  enable_ospf : value;
  ospf_profile : value
}.

(** [for nodeid in range(1, nodes+1): node_list.append(...)] *)
Fixpoint node_loop (node_list : list value) (name node_type : string)
    (nodeids : list Z) : list value :=
  match nodeids with
  | [] => node_list
  | nodeid :: rest =>
      node_loop (node_list ++ [Node_create name node_type nodeid])
                name node_type rest
  end.

(** [for entry in domain_server_address: domain_server_list.append(...)];
    [rank_i] is set before the loop and the body does not change it. *)
Fixpoint domain_server_loop (domain_server_list : list value) (rank_i : Z)
    (entries : list value) : list value :=
  match entries with
  | [] => domain_server_list
  | entry :: rest =>
      domain_server_loop
        (domain_server_list ++ [VDict [("rank", VInt rank_i); ("value", entry)]])
        rank_i rest
  end.

Definition antivirus : value :=
  VDict [("antivirus_enabled", VBool true);
         ("antivirus_update", VStr "daily");
         ("virus_log_level", VStr "stored");
         ("virus_mirror", VStr "update.nai.com/Products/CommonUpdater")].

Definition gti_settings : value :=
  VDict [("file_reputation_context", VStr "gti_cloud_only")].

Definition dynamic_routing (ospf_profile : value) : value :=
  VDict [("ospfv2",
          VDict [("enabled", VBool true); ("ospfv2_profile_ref", ospf_profile)])].

Section Create.
Context {World : Type}.
(** The lookups of [smc.actions.search]. *)
Variable get_first_log_server : M World value.
Variable get_ospf_default_profile : M World value.

Definition create (a : arguments) : M World (gmap string value) :=
  let node_list := node_loop [] (name a) (node_type a) (seqZ 1 (nodes a)) in
  domain_server_list <-
    (if truthy (domain_server_address a) then
       entries <- iterate (domain_server_address a) ;;
       ret (domain_server_loop [] 0 entries)
     else ret []) ;;
  log_server_ref <-
    (if negb (truthy (log_server_ref a)) && negb (node_type_is_literal a) then
       get_first_log_server
     else ret (log_server_ref a)) ;;
  let base_cfg : gmap string value :=
    list_to_map [("name", VStr (name a));
                 ("nodes", VList node_list);
                 ("domain_server_address", VList domain_server_list);
                 ("log_server_ref", log_server_ref);
                 ("physicalInterfaces", physical_interfaces a)] in
  let base_cfg :=
    if truthy (enable_antivirus a) then <[ "antivirus" := antivirus ]> base_cfg
    else base_cfg in
  let base_cfg :=
    if truthy (enable_gti a) then <[ "gti_settings" := gti_settings ]> base_cfg
    else base_cfg in
  let base_cfg :=
    if truthy (default_nat a) then <[ "default_nat" := VBool true ]> base_cfg
    else base_cfg in
  let base_cfg :=
    if truthy (location_ref a) then <[ "location_ref" := location_ref a ]> base_cfg
    else base_cfg in
  if truthy (enable_ospf a) then
    ospf_profile <-
      (if negb (truthy (ospf_profile a)) then get_ospf_default_profile
       else ret (ospf_profile a)) ;;
    ret (<[ "dynamic_routing" := dynamic_routing ospf_profile ]> base_cfg)
  else ret base_cfg.

End Create.

End EngineCreate.

Module EngineFixtures.

(** The lookups behind [Engine.create], and a call for a cluster of
    three firewall nodes with two DNS servers. *)
Definition get_first_log_server : M Recording.world value :=
  fun w => (Return (VStr "http://1.1.1.1/log_server/1"), w ++ ["log_server"]).

Definition get_ospf_default_profile : M Recording.world value :=
  fun w => (Return (VStr "http://1.1.1.1/ospfv2_profile/1"), w ++ ["ospfv2_profile"]).

Definition cluster : EngineCreate.arguments :=
  {| EngineCreate.name := "fw";
     EngineCreate.node_type := "firewall_node";
     EngineCreate.node_type_is_literal := false;
     EngineCreate.physical_interfaces := VList [];
     EngineCreate.nodes := 3;
     EngineCreate.log_server_ref := VNone;
     EngineCreate.domain_server_address := VList [VStr "8.8.8.8"; VStr "8.8.4.4"];
     EngineCreate.enable_antivirus := VBool true;
     EngineCreate.enable_gti := VBool false;
     EngineCreate.default_nat := VBool false;
     EngineCreate.location_ref := VNone;
     EngineCreate.enable_ospf := VNone;
     EngineCreate.ospf_profile := VNone |}.

Definition cluster_cfg : gmap string value :=
  match EngineCreate.create get_first_log_server get_ospf_default_profile cluster [] with
  | (Return cfg, _) => cfg
  | (Raise _, _) => ∅
  end.

End EngineFixtures.

(** ** smc.core.node: HardwareStatus.items *)

Module HardwareStatus.
Import Model.

(** The named tuple [Status(label, param, value)]. *)
Record Status : Type := { label : value; param : value; value_ : value }.

(** [for status in item.get('statuses'): totals.append(...)] *)
Fixpoint statuses_loop {S} (totals : list Status) (statuses : list value)
  : M S (list Status) :=
  match statuses with
  | [] => ret totals
  | status :: rest =>
      l <- value_get status "label" ;;
      p <- value_get status "param" ;;
      v <- value_get status "value" ;;
      statuses_loop (totals ++ [{| label := l; param := p; value_ := v |}]) rest
  end.

(** [for item in self._data.get('items'): ...] *)
Fixpoint items_loop {S} (totals : list Status) (items : list value)
  : M S (list Status) :=
  match items with
  | [] => ret totals
  | item :: rest =>
      found <- value_get item "statuses" ;;
      statuses <- iterate found ;;
      totals <- statuses_loop totals statuses ;;
      items_loop totals rest
  end.

Definition items {S} (_data : value) : M S (list Status) :=
  found <- value_get _data "items" ;;
  entries <- iterate found ;;
  items_loop [] entries.

(** The status a dictionary stands for, an absent field being [None]. *)
Definition status_of (fields : list (string * value)) : Status :=
  {| label := assoc_get "label" fields;
     param := assoc_get "param" fields;
     value_ := assoc_get "value" fields |}.

(** An item of a hardware status: a dictionary whose [statuses] entry is
    a list of the dictionaries given. *)
Definition item_with (item : value) (statuses : list (list (string * value))) : Prop :=
  ∃ fields, item = VDict fields
            ∧ assoc_get "statuses" fields = VList (map VDict statuses).

End HardwareStatus.

(** ** smc.policy.policy: locking a policy *)

Module PolicyCommands.
Import Model.

Section Commands.
Context {World : Type}.
Variable prepared_request :
  option (string -> exn) -> string -> list (string * value) -> value ->
  verb -> M World SMCResult.
(** [PolicyCommandFailed] of [smc.api.exceptions]. *)
Variable PolicyCommandFailed : string -> exn.

Definition open (policy_link : list (string * string)) : M World unit :=
  try_except
    (href <- _link policy_link "open" ;;
     prepared_request (Some PolicyCommandFailed) href [] VNone Create ;;
     ret tt)
    is_ResourceNotFound
    (fun _ => ret tt).

Definition save (policy_link : list (string * string)) : M World unit :=
  try_except
    (href <- _link policy_link "save" ;;
     prepared_request (Some PolicyCommandFailed) href [] VNone Create ;;
     ret tt)
    is_ResourceNotFound
    (fun _ => ret tt).

Definition force_unlock (policy_link : list (string * string)) : M World unit :=
  href <- _link policy_link "force_unlock" ;;
  prepared_request (Some PolicyCommandFailed) href [] VNone Create ;;
  ret tt.

End Commands.

End PolicyCommands.

(** ** smc.administration.system: exporting elements *)

Module System.
Import Model.

Definition valid_types : list string :=
  ["all"; "nw"; "ips"; "sv"; "rb"; "al"; "vpn"].

Section ExportElements.
Context {World : Type}.
Variable prepared_request :
  option (string -> exn) -> string -> list (string * value) -> value ->
  verb -> M World SMCResult.
(** [task_handler(Task(..json..), wait_for_finish=, filename=)] of
    [smc.administration.tasks], on the body of the reply. *)
Context {Updates : Type}.
Variable task_handler : value -> value -> value -> M World Updates.

Definition export_elements (system_link : list (string * string))
    (filename typeof wait_for_finish : value) : M World Updates :=
  let typeof := if negb (value_in typeof valid_types) then VStr "all" else typeof in
  href <- _link system_link "export_elements" ;;
  element <- prepared_request None href
               [("recursive", VBool true); ("type", typeof)] VNone Create ;;
  task_handler (json element) wait_for_finish filename.

End ExportElements.

End System.

(** ** smc.elements.element: Host *)

Module Host.

(** The attributes of a [Host] instance: the six of [SMCElement] and its
    own; [json] is [None] until [create] loads the template. *)
Record t : Type := {
  json : option (gmap string value);
  etag : value;
  type : value;
  name : value;
  href : value;
  params : value;
  ip : value;
  secondary_ip : list value;
  comment : value
}.

(** [Host(name, ip, secondary_ip=None, comment=None)] *)
Definition init (name ip secondary_ip comment : value) : t :=
  {| json := None; etag := VNone; type := VStr "host"; name := name;
     href := VNone; params := VNone; ip := ip;
     secondary_ip := if truthy secondary_ip then [secondary_ip] else [];
     comment := comment |}.

Definition with_json (self : t) (j : option (gmap string value)) : t :=
  {| json := j; etag := etag self; type := type self; name := name self;
     href := href self; params := params self; ip := ip self;
     secondary_ip := secondary_ip self; comment := comment self |}.

Definition with_href (self : t) (h : value) : t :=
  {| json := json self; etag := etag self; type := type self; name := name self;
     href := h; params := params self; ip := ip self;
     secondary_ip := secondary_ip self; comment := comment self |}.

Section Create.
Context {World : Type}.
(** [util.get_json_template] and [search.element_entry_point]. *)
Variable get_json_template : string -> M World (gmap string value).
Variable element_entry_point : value -> M World value.

(** A call that only concerns the world, run on an instance and the
    world. *)
Definition world {A} (m : M World A) : M (t * World) A :=
  fun s =>
    match m (snd s) with
    | (r, w') => (r, (fst s, w'))
    end.

Definition self : M (t * World) t := fun s => (Return (fst s), s).

(** [self.json[k] = v] *)
Definition json_setitem (k : string) (v : value) : M (t * World) unit :=
  this <- self ;;
  match json this with
  | Some j => modify (fun s => (with_json (fst s) (Some (<[ k := v ]> j)), snd s))
  | None => raise TypeError
  end.

(** [self.json['secondary'].append(addr)] *)
Definition secondary_append (addr : value) : M (t * World) unit :=
  this <- self ;;
  match json this with
  | Some j =>
      match j !! "secondary" with
      | Some (VList items) =>
          modify (fun s =>
                    (with_json (fst s)
                       (Some (<[ "secondary" := VList (items ++ [addr]) ]> j)),
                     snd s))
      | Some _ => raise AttributeError
      | None => raise (KeyError (VStr "secondary"))
      end
  | None => raise TypeError
  end.

Fixpoint secondary_loop (addrs : list value) : M (t * World) unit :=
  match addrs with
  | [] => ret tt
  | addr :: rest => secondary_append addr ;; secondary_loop rest
  end.

Definition _fetch_href : M (t * World) unit :=
  this <- self ;;
  h <- world (element_entry_point (type this)) ;;
  modify (fun s => (with_href (fst s) h, snd s)).

Definition create : M (t * World) t :=
  template <- world (get_json_template "host.json") ;;
  modify (fun s => (with_json (fst s) (Some template), snd s)) ;;
  this <- self ;;
  json_setitem "name" (name this) ;;
  json_setitem "address" (ip this) ;;
  json_setitem "comment"
    (match comment this with VNone => VStr "" | c => c end) ;;
  (match secondary_ip this with
   | [] => ret tt
   | addrs => secondary_loop addrs
   end) ;;
  _fetch_href ;;
  self.

End Create.

End Host.

Module HostFixtures.

(** The host template, and the entry point of each element type. *)
Definition get_json_template (file : string) : M Recording.world (gmap string value) :=
  fun w =>
    (Return (list_to_map [("name", VNone); ("address", VNone);
                          ("comment", VNone); ("secondary", VList [])]),
     w).

Definition element_entry_point (typeof : value) : M Recording.world value :=
  fun w =>
    (match typeof with
     | VStr t => Return (VStr ("http://1.1.1.1/elements/" +:+ t))
     | _ => Raise (OtherError "UnsupportedEntryPoint")
     end, w ++ ["entry_point"]).

End HostFixtures.

(** * Properties *)

(** ** The monad *)

Lemma bind_ext {S A B} (m : M S A) (k1 k2 : A → M S B) s :
  (∀ a s', k1 a s' = k2 a s') → bind m k1 s = bind m k2 s.
Proof. intros Hk. unfold bind. destruct (m s) as [[a | e] s']; [apply Hk | done]. Qed.

Lemma bind_ret_unit {S} (m : M S unit) s : bind m (λ _, ret tt) s = m s.
Proof. unfold bind, ret. by destruct (m s) as [[[] | e] s']. Qed.

(** ** Rule fields *)

Section RuleElementFacts.
Import RuleElement.

Implicit Types (f : field) (d : gmap string value).

Lemma typeof_not_any f : typeof f ≠ "any".
Proof. by destruct f. Qed.

Lemma typeof_not_none f : typeof f ≠ "none".
Proof. by destruct f. Qed.

Lemma is_any_true d : is_any d = true ↔ is_Some (d !! "any").
Proof. unfold is_any. by rewrite bool_decide_eq_true. Qed.

Lemma is_any_false d : is_any d = false ↔ d !! "any" = None.
Proof.
  unfold is_any. rewrite bool_decide_eq_false.
  by rewrite eq_None_not_Some.
Qed.

Lemma is_none_false d : is_none d = false ↔ d !! "none" = None.
Proof.
  unfold is_none. rewrite bool_decide_eq_false.
  by rewrite eq_None_not_Some.
Qed.

Lemma is_enumerated_true f d : is_enumerated f d = true ↔ is_Some (d !! typeof f).
Proof. unfold is_enumerated. by rewrite bool_decide_eq_true. Qed.

(** The three tests only look at the keys of the dictionary. *)
Lemma variants_by_dom f d d' :
  dom d' = dom d →
  is_any d' = is_any d ∧ is_none d' = is_none d
  ∧ is_enumerated f d' = is_enumerated f d.
Proof.
  intros Hdom. unfold is_any, is_none, is_enumerated.
  repeat split; apply bool_decide_ext; rewrite <- !elem_of_dom, Hdom; done.
Qed.

Lemma one_variant_by_dom f d d' :
  dom d' = dom d → one_variant f d → one_variant f d'.
Proof.
  intros Hdom. unfold one_variant, active_variants.
  destruct (variants_by_dom f d d' Hdom) as (-> & -> & ->). done.
Qed.

Lemma listing_one_variant f d : listing f d → one_variant f d.
Proof.
  intros (Ha & Hn & He). unfold one_variant, active_variants.
  by rewrite Ha, Hn, He.
Qed.

Lemma listing_by_dom f d d' : dom d' = dom d → listing f d → listing f d'.
Proof.
  intros Hdom. unfold listing.
  destruct (variants_by_dom f d d' Hdom) as (-> & -> & ->). done.
Qed.

Lemma listing_fresh f : listing f {[ typeof f := VList [] ]}.
Proof.
  repeat split.
  - apply is_any_false, lookup_singleton_ne, typeof_not_any.
  - apply is_none_false, lookup_singleton_ne, typeof_not_none.
  - apply is_enumerated_true. rewrite lookup_singleton_eq. eauto.
Qed.

(** What the opening test of [add] and [add_many] leaves behind. *)
Lemma reset_markers_run f d :
  reset_markers f d =
    (Return tt,
     if is_none d || is_any d then {[ typeof f := VList [] ]} else d).
Proof.
  unfold reset_markers, bind, get. simpl.
  destruct (is_none d || is_any d); [| done].
  unfold modify. simpl. by rewrite insert_empty.
Qed.

Lemma reset_markers_listing f d :
  one_variant f d → listing f (store_of (reset_markers f d)).
Proof.
  intros Hone. rewrite reset_markers_run. unfold store_of. simpl.
  destruct (is_none d) eqn:Hn, (is_any d) eqn:Ha; simpl;
    try apply listing_fresh.
  unfold one_variant, active_variants in Hone. rewrite Hn, Ha in Hone.
  repeat split; try done.
  destruct (is_enumerated f d); [done | discriminate].
Qed.

(** Appending never changes which keys the dictionary has, whether the
    call returns or raises. *)
Lemma append_dom f arg d :
  (∀ s, store_of (arg s) = s) →
  dom (store_of (append f arg d)) = dom d.
Proof.
  intros Harg. unfold append, bind, get, store_of. simpl.
  destruct (d !! typeof f) as [v|] eqn:Hv; [| done].
  destruct v; try done.
  specialize (Harg d). unfold store_of in Harg.
  destruct (arg d) as [[x|e] s]; simpl in *; subst; [| done].
  apply dom_insert_lookup_L. by rewrite Hv.
Qed.

Lemma add_entry_dom f e d : dom (store_of (add_entry f e d)) = dom d.
Proof.
  destruct e as [el | h]; simpl.
  - unfold try_except.
    pose proof (append_dom f (lift (elem_href el)) d (fun s => eq_refl)) as Hdom.
    unfold store_of in *.
    destruct (append f (lift (elem_href el)) d) as [[[]|x] s]; simpl in *;
      [done |].
    by destruct (is_ElementNotFound x).
  - by apply append_dom.
Qed.

Lemma add_many_loop_dom f es d : dom (store_of (add_many_loop f es d)) = dom d.
Proof.
  revert d. induction es as [| e es IH]; intros d; [done |].
  simpl. unfold bind.
  pose proof (add_entry_dom f e d) as Hdom. unfold store_of in *.
  destruct (add_entry f e d) as [[[]|x] s]; simpl in *; [| done].
  by rewrite IH.
Qed.

End RuleElementFacts.

Section RuleElementClaims.
Import RuleElement.

Implicit Types (f : field) (d : gmap string value).

(** C1. Starting from a field with exactly one active variant, each of
    [set_any], [set_none], [add] and [add_many] leaves exactly one variant
    active, whether the call returns or raises; after [add] and
    [add_many] the active one is the reference list, with neither the
    [any] nor the [none] marker beside it. *)
Theorem one_variant_preserved f d :
  one_variant f d →
  one_variant f (store_of (set_any d))
  ∧ one_variant f (store_of (set_none d))
  ∧ (∀ e, one_variant f (store_of (add f e d))
          ∧ listing f (store_of (add f e d)))
  ∧ (∀ es, one_variant f (store_of (add_many f es d))
           ∧ listing f (store_of (add_many f es d))).
Proof.
  intros Hone.
  assert (Hset : ∀ k, k = "any" ∨ k = "none" →
                 one_variant f (<[ k := VBool true ]> ∅)).
  { intros k [-> | ->]; by destruct f. }
  pose proof (reset_markers_listing f d Hone) as Hreset.
  rewrite reset_markers_run in Hreset. unfold store_of in Hreset.
  simpl in Hreset.
  split; [apply Hset; by left |].
  split; [apply Hset; by right |].
  split.
  - intros e.
    assert (listing f (store_of (add f e d))) as Hl.
    { unfold add, bind. rewrite reset_markers_run.
      eapply listing_by_dom; [apply add_entry_dom | done]. }
    split; [by apply listing_one_variant | done].
  - intros es.
    assert (listing f (store_of (add_many f es d))) as Hl.
    { unfold add_many, bind. rewrite reset_markers_run.
      eapply listing_by_dom; [apply add_many_loop_dom | done]. }
    split; [by apply listing_one_variant | done].
Qed.

Lemma one_variant_preserved_witness :
  one_variant Source (store_of (add Source (EHref (VStr "http://1.1.1.1/hosts/1"))
                                   (init None))).
Proof.
  apply (one_variant_preserved Source (init None)); reflexivity.
Defined.

(** C2. [is_any] holds exactly for the Any variant; and [add] with an
    href on a field carrying the [any] marker leaves the reference list
    with that one href and nothing else, so that [is_any] no longer
    holds. *)
Theorem is_any_iff_Any_then_add f :
  (∀ v, is_any (encode f v) = true ↔ v = Any)
  ∧ (∀ d ref,
       is_any d = true →
       add f (EHref ref) d = (Return tt, encode f (Enumerated [ref]))
       ∧ is_any (encode f (Enumerated [ref])) = false).
Proof.
  split.
  - intros v. rewrite is_any_true. destruct v as [| | refs]; simpl.
    + rewrite lookup_singleton_eq. split; [done | eauto].
    + rewrite lookup_singleton_ne by done.
      split; [by intros [? ?] | done].
    + rewrite lookup_singleton_ne by apply typeof_not_any.
      split; [by intros [? ?] | done].
  - intros d ref Hany. split.
    + unfold add, bind. rewrite reset_markers_run, Hany, orb_true_r.
      unfold add_entry, append, bind, get. simpl.
      rewrite lookup_singleton_eq. unfold modify, ret. simpl.
      by rewrite insert_singleton_eq.
    + apply is_any_false. simpl.
      apply lookup_singleton_ne, typeof_not_any.
Qed.

Lemma is_any_iff_Any_then_add_witness :
  add Destination (EHref (VStr "http://1.1.1.1/hosts/12345"))
      (encode Destination Any)
  = (Return tt, encode Destination (Enumerated [VStr "http://1.1.1.1/hosts/12345"]))
  ∧ is_any (encode Destination (Enumerated [VStr "http://1.1.1.1/hosts/12345"]))
    = false.
Proof.
  apply (proj2 (is_any_iff_Any_then_add Destination)). reflexivity.
Defined.

(** The loop of [add_many] on a dictionary that holds a list: the hrefs
    the arguments resolve to are appended in order, and an element whose
    lookup raises [ElementNotFound] adds nothing. *)
Lemma add_many_loop_run f es d items :
  d !! typeof f = Some (VList items) →
  Forall fails_by_not_found es →
  add_many_loop f es d
  = (Return tt, <[ typeof f := VList (items ++ resolved es) ]> d).
Proof.
  intros Hd Hes. revert d items Hd.
  induction Hes as [| e es He Hes IH]; intros d items Hd.
  - simpl. unfold ret. rewrite app_nil_r. by rewrite insert_id.
  - replace (resolved (e :: es)) with (resolved [e] ++ resolved es)
      by (unfold resolved; simpl; by case_match).
    cbn [add_many_loop]. unfold bind.
    assert (add_entry f e d
            = (Return tt,
               <[ typeof f := VList (items ++ resolved [e]) ]> d)) as ->.
    { destruct e as [el | h]; unfold resolved; simpl in *.
      - unfold try_except, append, bind, get, lift. simpl. rewrite Hd.
        destruct (elem_href el) as [h | x]; simpl.
        + done.
        + subst x. simpl. unfold ret.
          rewrite app_nil_r. by rewrite insert_id.
      - unfold append, bind, get, ret. simpl. by rewrite Hd. }
    rewrite (IH _ (items ++ resolved [e])) by apply lookup_insert_eq.
    rewrite insert_insert_eq, <- app_assoc. done.
Qed.

Lemma resolved_hrefs (hs : list value) : resolved (map EHref hs) = hs.
Proof.
  induction hs as [| h hs IH]; [done |].
  change (resolved (map EHref (h :: hs))) with (h :: resolved (map EHref hs)).
  by rewrite IH.
Qed.

(** C3. On a fresh field, [add_many] of a list of hrefs followed by
    [all_as_href] gives the same list back, in the same order. *)
Theorem add_many_all_as_href_roundtrip f (hs : list value) :
  (add_many f (map EHref hs) ;; all_as_href f) (init None)
  = (Return (Some hs), encode f (Enumerated hs)).
Proof.
  unfold add_many, bind. rewrite reset_markers_run.
  assert (is_none (init None) = true) as -> by done. cbn [orb].
  rewrite (add_many_loop_run f _ _ []).
  - rewrite resolved_hrefs. simpl. rewrite insert_singleton_eq.
    unfold all_as_href, bind, get. simpl.
    pose proof (listing_by_dom f {[ typeof f := VList [] ]}
                  {[ typeof f := VList hs ]}) as Hl.
    destruct Hl as (-> & -> & _);
      [by rewrite !dom_singleton_L | apply listing_fresh |].
    simpl. unfold subscript, bind, get. simpl.
    by rewrite lookup_singleton_eq.
  - apply lookup_singleton_eq.
  - apply Forall_forall. intros e He.
    apply list_elem_of_fmap in He as (h & -> & _). done.
Qed.

(** After the opening test of [add] and [add_many], a well-formed field
    holds its references as a list, with no marker. *)
Lemma reset_markers_stored f d :
  well_formed f d →
  let d1 := if is_none d || is_any d then {[ typeof f := VList [] ]} else d in
  d1 !! typeof f = Some (VList (stored f d)) ∧ is_none d1 || is_any d1 = false.
Proof.
  intros Hwf. unfold stored.
  destruct (is_none d || is_any d) eqn:Hm; simpl.
  - split; [apply lookup_singleton_eq |].
    destruct (listing_fresh f) as (-> & -> & _). done.
  - destruct Hwf as [? | [items Hitems]]; [congruence |].
    by rewrite Hitems.
Qed.

Lemma stored_insert f d items :
  is_none d || is_any d = false →
  stored f (<[ typeof f := VList items ]> d) = items.
Proof.
  intros Hm. apply orb_false_elim in Hm as [Hn Ha].
  apply is_none_false in Hn. apply is_any_false in Ha.
  unfold stored.
  assert (is_none (<[ typeof f := VList items ]> d) = false) as ->.
  { apply is_none_false. rewrite lookup_insert_ne by apply typeof_not_none.
    done. }
  assert (is_any (<[ typeof f := VList items ]> d) = false) as ->.
  { apply is_any_false. rewrite lookup_insert_ne by apply typeof_not_any.
    done. }
  simpl. by rewrite lookup_insert_eq.
Qed.

(** C5. On a well-formed field, an [Element] argument whose href lookup
    raises [ElementNotFound] is skipped: [add] returns normally and the
    references are as before; [add_many] returns normally and has
    appended, in order, the hrefs of the arguments that resolve. *)
Theorem not_found_elements_skipped f d :
  well_formed f d →
  (∀ el, elem_href el = Raise ElementNotFound →
     result_of (add f (EElement el) d) = Return tt
     ∧ stored f (store_of (add f (EElement el) d)) = stored f d)
  ∧ (∀ es, Forall fails_by_not_found es →
       result_of (add_many f es d) = Return tt
       ∧ stored f (store_of (add_many f es d)) = stored f d ++ resolved es).
Proof.
  intros Hwf.
  destruct (reset_markers_stored f d Hwf) as [Hlist Hm].
  assert (∀ es, Forall fails_by_not_found es →
            result_of (add_many f es d) = Return tt
            ∧ stored f (store_of (add_many f es d)) = stored f d ++ resolved es)
    as Hmany.
  { intros es Hes. unfold add_many, bind. rewrite reset_markers_run.
    rewrite (add_many_loop_run f es _ _ Hlist Hes).
    split; [done |]. unfold store_of. simpl. by apply stored_insert. }
  split; [| done].
  intros el Hel.
  destruct (Hmany [EElement el]) as [Hr Hs].
  { apply Forall_singleton. simpl. by rewrite Hel. }
  assert (add_many f [EElement el] d = add f (EElement el) d) as Heq.
  { unfold add_many, add. apply bind_ext. intros _ s.
    cbn [add_many_loop]. apply bind_ret_unit. }
  rewrite Heq in Hr, Hs. split; [done |].
  rewrite Hs. unfold resolved. simpl. rewrite Hel. apply app_nil_r.
Qed.

Lemma not_found_elements_skipped_witness :
  stored Service
    (store_of
       (add_many Service
          [EHref (VStr "http://1.1.1.1/services/1");
           EElement {| elem_name := "missing"; elem_href := Raise ElementNotFound |};
           EElement {| elem_name := "dns";
                       elem_href := Return (VStr "http://1.1.1.1/services/53") |}]
          (encode Service (Enumerated [VStr "http://1.1.1.1/services/0"]))))
  = [VStr "http://1.1.1.1/services/0"; VStr "http://1.1.1.1/services/1";
     VStr "http://1.1.1.1/services/53"].
Proof.
  refine (proj2 (proj2 (not_found_elements_skipped Service
                   (encode Service (Enumerated [VStr "http://1.1.1.1/services/0"]))
                   _) _ _)).
  - right. eexists. reflexivity.
  - repeat constructor.
Defined.

End RuleElementClaims.

Section AllClaims.
Import RuleElement.
Context {Obj : Type}.
Variable from_href : value → outcome Obj.

Implicit Types (f : field) (d : gmap string value).

(** The comprehension of [all] reads the store and leaves it alone; it
    returns exactly when every href resolves. *)
Lemma comprehension_run (refs : list value) d :
  store_of (comprehension from_href refs d) = d
  ∧ ∀ objs, result_of (comprehension from_href refs d) = Return objs
            ↔ Forall2 (λ h o, from_href h = Return o) refs objs.
Proof.
  induction refs as [| h refs [IHs IHr]].
  - split; [done |]. intros objs. simpl. split.
    + intros [= <-]. constructor.
    + intros Hall. by inversion Hall.
  - simpl. unfold bind, lift, store_of, result_of in *.
    destruct (from_href h) as [o | x] eqn:Hh; simpl.
    + destruct (comprehension from_href refs d) as [[os | x] s]; simpl in *;
        subst s; (split; [done |]); intros objs; split.
      * intros [= <-]. constructor; [done | by apply IHr].
      * intros Hall. inversion Hall as [| ? o' ? os' Ho Hos]; subst.
        apply IHr in Hos. congruence.
      * done.
      * intros Hall. inversion Hall as [| ? o' ? os' Ho Hos]; subst.
        by apply IHr in Hos.
    + split; [done |]. intros objs. split; [done |].
      intros Hall. inversion Hall; congruence.
Qed.

(** C10. Under the [any] or the [none] marker, [all] gives the empty list
    and [all_as_href] gives [None]; on a reference list, [all_as_href]
    gives the stored hrefs and [all] the elements those same hrefs
    resolve to, one for one. *)
Theorem all_versus_all_as_href f d :
  (is_any d || is_none d = true →
     all from_href f d = (Return [], d)
     ∧ all_as_href f d = (Return None, d))
  ∧ (∀ refs,
       is_any d = false → is_none d = false →
       d !! typeof f = Some (VList refs) →
       all_as_href f d = (Return (Some refs), d)
       ∧ ∀ objs, all from_href f d = (Return objs, d)
                 ↔ Forall2 (λ h o, from_href h = Return o) refs objs).
Proof.
  split.
  - intros Hm. unfold all, all_as_href, bind, get. simpl.
    by destruct (is_any d), (is_none d).
  - intros refs Ha Hn Hrefs.
    unfold all, all_as_href, subscript, bind, get. simpl.
    rewrite Ha, Hn. simpl. rewrite Hrefs. simpl. split; [done |].
    intros objs. destruct (comprehension_run refs d) as [Hs Hr].
    rewrite <- Hr. unfold store_of, result_of in *.
    destruct (comprehension from_href refs d) as [r s]. simpl in *. subst s.
    split; congruence.
Qed.

End AllClaims.

Lemma all_versus_all_as_href_witness :
  RuleElement.all (λ h, Return h) RuleElement.Source
    (RuleElement.encode RuleElement.Source RuleElement.Any)
  = (Return [], RuleElement.encode RuleElement.Source RuleElement.Any)
  ∧ RuleElement.all_as_href RuleElement.Source
      (RuleElement.encode RuleElement.Source RuleElement.Any)
    = (Return None, RuleElement.encode RuleElement.Source RuleElement.Any).
Proof.
  apply (proj1 (all_versus_all_as_href (λ h, Return h) RuleElement.Source
                  (RuleElement.encode RuleElement.Source RuleElement.Any))).
  reflexivity.
Defined.

(** ** Validated setters of Action and LogOptions *)

(** A value outside the levels of [log_level], assigned on the defaults of
    [LogOptions]: no error, but the data changes, since the setter goes on
    to switch [log_accounting_info_mode] on. *)
Lemma log_level_rejected_value_changes_data :
  value_in (VStr "debug") ["none"; "stored"; "transient"; "essential"; "alert"]
  = false
  ∧ LogOptions.set_log_level (VStr "debug") (LogOptions.init None)
    = (Return tt,
       <[ "log_accounting_info_mode" := VBool true ]> (LogOptions.init None))
  ∧ store_of (LogOptions.set_log_level (VStr "debug") (LogOptions.init None))
    ≠ LogOptions.init None.
Proof.
  split; [done |]. split; [done |].
  intros Heq.
  apply (f_equal (λ d, d !! "log_accounting_info_mode")) in Heq.
  vm_compute in Heq. discriminate.
Qed.

(** C4, amended. A value outside the allowed set of [action],
    [scan_detection], [application_logging] or [user_logging] raises
    nothing and leaves the data as it was. A value outside the levels of
    [log_level] raises nothing and leaves every entry but
    [log_accounting_info_mode] as it was, and the whole data when that mode
    is already on. *)
Theorem rejected_value_is_ignored (v : value) (d : gmap string value) :
  (∀ _actions, value_in v _actions = false →
     Action.set_action _actions v d = (Return tt, d))
  ∧ (value_in v ["on"; "off"; "undefined"] = false →
     Action.set_scan_detection v d = (Return tt, d))
  ∧ (value_in v ["off"; "default"; "enforced"] = false →
     LogOptions.set_application_logging v d = (Return tt, d))
  ∧ (value_in v ["true"; "false"; "enforced"] = false →
     LogOptions.set_user_logging v d = (Return tt, d))
  ∧ (value_in v ["none"; "stored"; "transient"; "essential"; "alert"] = false →
     result_of (LogOptions.set_log_level v d) = Return tt
     ∧ (∀ k, k ≠ "log_accounting_info_mode" →
          store_of (LogOptions.set_log_level v d) !! k = d !! k)
     ∧ (truthy (LogOptions.log_accounting_info_mode d) = true →
        store_of (LogOptions.set_log_level v d) = d)).
Proof.
  repeat split.
  - intros _actions Hv. unfold Action.set_action. by rewrite Hv.
  - intros Hv. unfold Action.set_scan_detection. by rewrite Hv.
  - intros Hv. unfold LogOptions.set_application_logging. by rewrite Hv.
  - intros Hv. unfold LogOptions.set_user_logging. by rewrite Hv.
  - unfold LogOptions.set_log_level. rewrite H.
    unfold bind, ret, get, result_of. simpl.
    by destruct (truthy (LogOptions.log_accounting_info_mode d)).
  - intros k Hk. unfold LogOptions.set_log_level. rewrite H.
    unfold bind, ret, get, store_of. simpl.
    destruct (truthy (LogOptions.log_accounting_info_mode d)); simpl;
      [done |].
    by rewrite lookup_insert_ne.
  - intros Hon. unfold LogOptions.set_log_level. rewrite H.
    unfold bind, ret, get, store_of. simpl. by rewrite Hon.
Qed.

Lemma rejected_value_is_ignored_witness :
  Action.set_action ["allow"; "discard"; "refuse"] (VStr "permit")
    (fst (Action.init None None))
  = (Return tt, fst (Action.init None None)).
Proof.
  apply (proj1 (rejected_value_is_ignored (VStr "permit")
                  (fst (Action.init None None)))).
  reflexivity.
Defined.

(** ** Engines, nodes and policies *)

Section ResourceClaims.
Import Model.
Context {World : Type}.
Variable prepared_request :
  option (string → exn) → string → list (string * value) → value →
  verb → M World SMCResult.
Variable _get_resource : string → M World value.
Variable Meta_kwargs : value → outcome Meta.
Variable load : Engine → M World Engine.
Context {Klass : Type}.
Variable Registry : gmap string Klass.

(** C6. On an engine that is loaded and whose links have no
    [internal_gateway] relation, the [internal_gateway] property raises
    [UnsupportedEngineFeature] with a message that names the engine
    type; no request is made and [ResourceNotFound] does not reach the
    caller. *)
Theorem internal_gateway_unsupported (e : Engine) (m : Meta) (w : World) :
  engine_meta e = Some m →
  find_link_by_name "internal_gateway" (engine_link e) = None →
  internal_gateway _get_resource Meta_kwargs load e w
  = (Raise (UnsupportedEngineFeature
              ("This engine does not support an internal gateway for VPN, "
               +:+ "engine type: " +:+ meta_type m)),
     w).
Proof.
  intros Hmeta Hlink.
  unfold internal_gateway, try_except, _get_resource_by_link, bind, _link.
  rewrite Hlink. simpl.
  unfold engine_type, bind. rewrite Hmeta. simpl. by rewrite Hmeta.
Qed.

(** C7, amended. When the node's representation has no link for it,
    each of the four license operations catches the not-found condition
    and returns normally, having made no request. *)
Theorem license_link_absent (n : Node) (w : World) :
  (find_link_by_name "fetch" (node_link n) = None →
   fetch_license prepared_request n w = (Return tt, w))
  ∧ (∀ license_item_id,
       find_link_by_name "bind" (node_link n) = None →
       bind_license prepared_request n license_item_id w = (Return tt, w))
  ∧ (find_link_by_name "unbind" (node_link n) = None →
     unbind_license prepared_request n w = (Return tt, w))
  ∧ (find_link_by_name "cancel_unbind" (node_link n) = None →
     cancel_unbind_license prepared_request n w = (Return tt, w)).
Proof.
  unfold fetch_license, bind_license, unbind_license, cancel_unbind_license.
  unfold try_except, bind, _link.
  repeat split; intros; by match goal with H : _ = None |- _ => rewrite H end.
Qed.

(** The sibling [ssh] turns the same condition into
    [NodeCommandFailed]. *)
Lemma ssh_link_absent (n : Node) (enable comment : value) (w : World) :
  find_link_by_name "ssh" (node_link n) = None →
  ssh prepared_request n enable comment w
  = (Raise (NodeCommandFailed
              ("SSH not supported on this node type: " +:+ node_type n)), w).
Proof.
  intros Hlink. unfold ssh, try_except, bind, _link. by rewrite Hlink.
Qed.

(** The branch of [search_rule_loop] that picks the class agrees with the
    dispatch table. *)
Lemma search_rule_loop_first (results : list Rule) (fields : list (string * value))
    (rest : list value) (tag : string) (w : World) :
  assoc_get "type" fields = VStr tag →
  search_rule_loop Meta_kwargs Registry results (VDict fields :: rest) w
  = match Registry !! Dispatch.registry_key tag with
    | Some klazz =>
        match Meta_kwargs (VDict fields) with
        | Return m =>
            (Return (Some (results ++ [{| rule_class := klazz; rule_meta := m |}])), w)
        | Raise x => (Raise x, w)
        end
    | None => (Raise (KeyError (VStr (Dispatch.registry_key tag))), w)
    end.
Proof.
  intros Htag.
  unfold search_rule_loop, value_get, bind, ret, lift. simpl. rewrite Htag.
  unfold type_is, Dispatch.registry_key.
  destruct (String.eqb tag "ips_ethernet_rule"); simpl.
  { destruct (Registry !! "ethernet_rule"); simpl; [| done].
    by destruct (Meta_kwargs (VDict fields)). }
  destruct (String.eqb tag "ips_ipv4_access_rule"); simpl.
  { destruct (Registry !! "layer2_ipv4_access_rule"); simpl; [| done].
    by destruct (Meta_kwargs (VDict fields)). }
  destruct (Registry !! tag); simpl; [| done].
  by destruct (Meta_kwargs (VDict fields)).
Qed.

(** Whatever the entries, the loop hands back at most one rule. *)
Lemma search_rule_loop_length (entries : list value) (w w' : World) rules :
  search_rule_loop Meta_kwargs Registry [] entries w = (Return (Some rules), w') →
  length rules = 1.
Proof.
  destruct entries as [| data rest]; [done |].
  unfold search_rule_loop, bind, ret, lift.
  destruct (value_get data "type" w) as [[t | x] w1]; [| done].
  match goal with
  | |- context [(let (o, s') := ?c w1 in _)] => destruct (c w1) as [[klazz | x] w2]
  end; [| done].
  destruct (Meta_kwargs data) as [m | x]; [| done].
  by intros [= <- _].
Qed.

(** C9. [search_rule] returns at most one rule. When the request returns
    a body with at least one entry, the result is the one-element list
    that wraps the first entry in the class the registry holds for its
    type tag, the two IPS tags going to [ethernet_rule] and
    [layer2_ipv4_access_rule]; when the body is empty the result is the
    empty list. *)
Theorem search_rule_first_entry_only
    (policy_link : list (string * string)) (search : value) (w : World) :
  (∀ rules w',
     search_rule prepared_request Meta_kwargs Registry policy_link search w
     = (Return rules, w') →
     (length rules ≤ 1)%nat)
  ∧ (∀ href result w',
       find_link_by_name "search_rule" policy_link = Some href →
       prepared_request None href [("filter", search)] VNone Read w
       = (Return result, w') →
       (json result = VList [] →
        search_rule prepared_request Meta_kwargs Registry policy_link search w
        = (Return [], w'))
       ∧ (∀ fields rest tag klazz m,
            json result = VList (VDict fields :: rest) →
            assoc_get "type" fields = VStr tag →
            Registry !! Dispatch.registry_key tag = Some klazz →
            Meta_kwargs (VDict fields) = Return m →
            search_rule prepared_request Meta_kwargs Registry policy_link search w
            = (Return [{| rule_class := klazz; rule_meta := m |}], w'))).
Proof.
  split.
  - intros rules w'. unfold search_rule, bind, _link.
    destruct (find_link_by_name "search_rule" policy_link) as [href |];
      [| done].
    simpl.
    destruct (prepared_request None href [("filter", search)] VNone Read w)
      as [[result | x] w1]; [| done].
    unfold ret.
    destruct (truthy (json result)); [| intros [= <- _]; simpl; lia].
    destruct (iterate (json result) w1) as [[entries | x] w2]; [| done].
    destruct (search_rule_loop Meta_kwargs Registry [] entries w2)
      as [[[found |] | x] w3] eqn:Hloop; [| intros [= <- _]; simpl; lia | done].
    intros [= <- _]. rewrite (search_rule_loop_length _ _ _ _ Hloop). lia.
  - intros href result w' Hlink Hreq. unfold search_rule, bind, _link.
    rewrite Hlink. simpl. rewrite Hreq. split.
    + by intros ->.
    + intros fields rest tag klazz m Hjson Htag Hreg Hmeta.
      rewrite Hjson. unfold truthy, iterate, ret. cbn beta iota.
      rewrite (search_rule_loop_first _ _ _ _ _ Htag), Hreg, Hmeta. done.
Qed.

End ResourceClaims.

Lemma internal_gateway_unsupported_witness :
  Model.internal_gateway Recording._get_resource Recording.Meta_kwargs
    Recording.load Recording.layer2_engine []
  = (Raise (UnsupportedEngineFeature
              "This engine does not support an internal gateway for VPN, engine type: single_layer2"),
     []).
Proof.
  apply (internal_gateway_unsupported Recording._get_resource
           Recording.Meta_kwargs Recording.load Recording.layer2_engine
           _ [] eq_refl).
  reflexivity.
Defined.

(** On a node of a virtual engine, which has none of the license links,
    the four license operations return normally and nothing is sent. *)
Lemma license_operations_return_silently :
  Model.find_link_by_name "fetch" (Model.node_link Recording.virtual_node) = None
  ∧ Model.fetch_license Recording.prepared_request Recording.virtual_node []
    = (Return tt, [])
  ∧ Model.bind_license Recording.prepared_request Recording.virtual_node VNone []
    = (Return tt, [])
  ∧ Model.unbind_license Recording.prepared_request Recording.virtual_node []
    = (Return tt, [])
  ∧ Model.cancel_unbind_license Recording.prepared_request Recording.virtual_node []
    = (Return tt, []).
Proof. repeat split. Qed.

Lemma license_link_absent_witness :
  Model.unbind_license Recording.prepared_request Recording.virtual_node []
  = (Return tt, []).
Proof.
  apply (proj1 (proj2 (proj2 (license_link_absent Recording.prepared_request
                                Recording.virtual_node [])))).
  reflexivity.
Defined.

Lemma search_rule_first_entry_only_witness :
  Model.search_rule Recording.search_request Recording.Meta_kwargs
    Recording.Registry Recording.policy_link (VStr "Rule") []
  = (Return [{| Model.rule_class := "EthernetRule";
                Model.rule_meta :=
                  {| Model.meta_name := VStr "Rule @20.0";
                     Model.meta_href :=
                       "http://1.1.1.1/ips_policy/3/ips_ethernet_rule/20";
                     Model.meta_type := "ips_ethernet_rule" |} |}],
     ["http://1.1.1.1/ips_policy/3/search_rule"]).
Proof.
  refine (proj2 (proj2 (search_rule_first_entry_only Recording.search_request
                          Recording.Meta_kwargs Recording.Registry
                          Recording.policy_link (VStr "Rule") [])
                   _ _ _ eq_refl eq_refl)
            _ _ "ips_ethernet_rule" _ _ eq_refl eq_refl _ eq_refl).
  reflexivity.
Defined.

(** ** SMCElement.factory *)

Section FactoryClaims.
Import SMCElement.

Lemma assign_same (cls : class) attr v (h : heap) :
  assign cls attr v h cls = <[ attr := v ]> (h cls).
Proof. unfold assign. by rewrite decide_True. Qed.

Lemma assign_other (cls c : class) attr v (h : heap) :
  c ≠ cls → assign cls attr v h c = h c.
Proof. intros Hc. unfold assign. by rewrite decide_False. Qed.

Lemma getattr_own (cls : class) attr v (h : heap) :
  h cls !! attr = Some v → getattr cls attr h = (Return v, h).
Proof. intros Hv. unfold getattr, bind, get. simpl. by rewrite Hv. Qed.

(** What [factory] leaves in the store: the dictionary of the class it
    was called on holds the six arguments, the other classes are as they
    were. *)
Lemma factory_run (cls : class) (a : args) (h : heap) :
  result_of (factory cls a h) = Return cls
  ∧ store_of (factory cls a h) cls
    = <[ "params" := params a ]>
        (<[ "json" := json a ]>
           (<[ "type" := _type a ]>
              (<[ "etag" := etag a ]>
                 (<[ "href" := href a ]>
                    (<[ "name" := name a ]> (h cls))))))
  ∧ ∀ c, c ≠ cls → store_of (factory cls a h) c = h c.
Proof.
  assert (factory cls a h
          = (Return cls,
             assign cls "params" (params a)
               (assign cls "json" (json a)
                  (assign cls "type" (_type a)
                     (assign cls "etag" (etag a)
                        (assign cls "href" (href a)
                           (assign cls "name" (name a) h))))))) as -> by done.
  unfold result_of, store_of. cbn [fst snd].
  split; [done |]. split.
  - by rewrite !assign_same.
  - intros c Hc. by rewrite !assign_other.
Qed.

(** C8. [factory] stores its arguments on the class it is called on and
    returns that class. A second call returns the same class, and the
    attributes read through what the first call returned are then the
    arguments of the second call. *)
Theorem factory_shares_class_attributes (cls : class) (a b : args) (h : heap) :
  let first := factory cls a h in
  let second := factory cls b (store_of first) in
  result_of first = Return cls
  ∧ result_of second = result_of first
  ∧ Forall (λ '(attr, v), getattr cls attr (store_of first)
                          = (Return v, store_of first))
           (assigned a)
  ∧ ∀ obj, result_of first = Return obj →
      Forall (λ '(attr, v), getattr obj attr (store_of second)
                            = (Return v, store_of second))
             (assigned b).
Proof.
  assert (∀ x g, Forall (λ '(attr, v), getattr cls attr (store_of (factory cls x g))
                                  = (Return v, store_of (factory cls x g)))
                   (assigned x)) as Hread.
  { intros x g. destruct (factory_run cls x g) as (_ & Hcls & _).
    unfold assigned.
    repeat (apply Forall_cons; split;
            [apply getattr_own; rewrite Hcls; by simplify_map_eq |]).
    constructor. }
  intros first second. subst first second.
  destruct (factory_run cls a h) as (Ha & _).
  destruct (factory_run cls b (store_of (factory cls a h))) as (Hb & _).
  split; [done |]. split; [congruence |]. split; [apply Hread |].
  intros obj Hobj. rewrite Ha in Hobj. injection Hobj as <-. apply Hread.
Qed.

End FactoryClaims.

Lemma factory_shares_class_attributes_witness :
  let a := {| SMCElement.name := VStr "host-a"; SMCElement.href := VStr "/elements/host/1";
              SMCElement.etag := VStr "v1"; SMCElement._type := VStr "host";
              SMCElement.json := VNone; SMCElement.params := VNone |} in
  let b := {| SMCElement.name := VStr "host-b"; SMCElement.href := VStr "/elements/host/2";
              SMCElement.etag := VStr "v7"; SMCElement._type := VStr "host";
              SMCElement.json := VNone; SMCElement.params := VNone |} in
  let first := SMCElement.factory SMCElement.SMCElement a SMCElement.initial in
  let second := SMCElement.factory SMCElement.SMCElement b (store_of first) in
  Forall (λ '(attr, v), SMCElement.getattr SMCElement.SMCElement attr (store_of second)
                        = (Return v, store_of second))
         (SMCElement.assigned b).
Proof.
  intros a b first second.
  apply (proj2 (proj2 (proj2 (factory_shares_class_attributes
                                 SMCElement.SMCElement a b SMCElement.initial)))).
  reflexivity.
Defined.

(** ** Rule fields: how the operations compose and fail *)

Section RuleElementMore.
Import RuleElement.

Implicit Types (f : field) (d : gmap string value).

Lemma bind_assoc {S A B C} (m : M S A) (k : A → M S B) (k' : B → M S C) s :
  bind (bind m k) k' s = bind m (λ a, bind (k a) k') s.
Proof. unfold bind. by destruct (m s) as [[a | e] s']. Qed.

Lemma add_many_loop_app f xs ys d :
  add_many_loop f (xs ++ ys) d
  = (add_many_loop f xs ;; add_many_loop f ys) d.
Proof.
  revert d. induction xs as [| x xs IH]; intros d; [done |].
  cbn [app add_many_loop]. rewrite bind_assoc.
  apply bind_ext. intros _ s. apply IH.
Qed.

(** Once the markers are gone the opening test does nothing. *)
Lemma reset_markers_skip f d :
  is_none d || is_any d = false → reset_markers f d = (Return tt, d).
Proof. intros Hm. rewrite reset_markers_run. by rewrite Hm. Qed.

Lemma reset_markers_clears f d :
  let d1 := store_of (reset_markers f d) in is_none d1 || is_any d1 = false.
Proof.
  rewrite reset_markers_run. unfold store_of. simpl.
  destruct (is_none d || is_any d) eqn:Hm; [| done].
  by destruct (listing_fresh f) as (-> & -> & _).
Qed.

Lemma markers_by_dom d d' :
  dom d' = dom d → is_none d' || is_any d' = is_none d || is_any d.
Proof.
  intros Hdom.
  by destruct (variants_by_dom Source d d' Hdom) as (-> & -> & _).
Qed.

(** [add(x)] is [add_many([x])]: same outcome, same data. *)
Theorem add_is_add_many_singleton f (e : entry) d :
  add f e d = add_many f [e] d.
Proof.
  unfold add_many, add. apply bind_ext. intros _ s.
  cbn [add_many_loop]. symmetry. apply bind_ret_unit.
Qed.

(** One call of [add_many] on a concatenation is two calls in a row, on
    any data and whether or not it raises on the way. *)
Theorem add_many_app f (xs ys : list entry) d :
  add_many f (xs ++ ys) d = (add_many f xs ;; add_many f ys) d.
Proof.
  pose proof (reset_markers_clears f d) as Hclear.
  unfold add_many, bind at 1 2 3. rewrite reset_markers_run in *.
  unfold store_of in Hclear. cbn [fst snd] in *.
  set (d1 := if is_none d || is_any d then {[ typeof f := VList [] ]} else d) in *.
  rewrite add_many_loop_app. unfold bind at 1.
  pose proof (add_many_loop_dom f xs d1) as Hdom. unfold store_of in Hdom.
  destruct (add_many_loop f xs d1) as [[[] | x] d2]; [| done].
  cbn [snd] in Hdom. unfold bind.
  rewrite reset_markers_skip; [done |].
  by rewrite (markers_by_dom d1 d2 Hdom).
Qed.

(** On data with neither marker nor list, [add] and a non-empty
    [add_many] raise [KeyError] on the subscript and leave the data alone,
    whatever the argument is: the lookup of an element is not reached. An
    empty [add_many] returns. *)
Theorem add_without_marker_or_list f d :
  is_none d || is_any d = false →
  d !! typeof f = None →
  (∀ e, add f e d = (Raise (KeyError (VStr (typeof f))), d))
  ∧ (∀ e es, add_many f (e :: es) d = (Raise (KeyError (VStr (typeof f))), d))
  ∧ add_many f [] d = (Return tt, d).
Proof.
  intros Hm Hd.
  assert (∀ e, add_entry f e d = (Raise (KeyError (VStr (typeof f))), d)) as He.
  { intros [el | h]; unfold add_entry, try_except, append, bind, get;
      cbn beta iota; by rewrite Hd. }
  repeat split.
  - intros e. unfold add, bind. by rewrite reset_markers_skip, He.
  - intros e es. unfold add_many, bind at 1. rewrite reset_markers_skip by done.
    cbn [add_many_loop]. unfold bind. by rewrite He.
  - unfold add_many, bind. by rewrite reset_markers_skip.
Qed.

Lemma add_without_marker_or_list_witness :
  add Source (EElement {| elem_name := "h"; elem_href := Raise ElementNotFound |}) ∅
  = (Raise (KeyError (VStr "src")), ∅).
Proof.
  refine (proj1 (add_without_marker_or_list Source ∅ _ _) _); reflexivity.
Defined.

(** [add_many] is not all-or-nothing: when the lookup of an element
    raises anything but [ElementNotFound], that exception reaches the
    caller, the entries before it have been appended and those after it
    have not. *)
Theorem add_many_stops_at_failing_lookup f d (xs ys : list entry) el x :
  well_formed f d →
  Forall fails_by_not_found xs →
  elem_href el = Raise x →
  x ≠ ElementNotFound →
  result_of (add_many f (xs ++ EElement el :: ys) d) = Raise x
  ∧ stored f (store_of (add_many f (xs ++ EElement el :: ys) d))
    = stored f d ++ resolved xs.
Proof.
  intros Hwf Hxs Hel Hx.
  destruct (reset_markers_stored f d Hwf) as [Hlist Hm].
  assert (add_many f (xs ++ EElement el :: ys) d
          = (Raise x,
             <[ typeof f := VList (stored f d ++ resolved xs) ]>
               (if is_none d || is_any d then {[ typeof f := VList [] ]} else d)))
    as ->.
  { unfold add_many, bind at 1. rewrite reset_markers_run.
    rewrite add_many_loop_app. unfold bind at 1.
    rewrite (add_many_loop_run f xs _ _ Hlist Hxs).
    cbn [add_many_loop]. unfold bind, add_entry, try_except, append, bind, get.
    cbn beta iota. rewrite lookup_insert_eq. unfold lift. rewrite Hel.
    by assert (is_ElementNotFound x = false) as -> by by destruct x. }
  unfold result_of, store_of. cbn [fst snd].
  split; [done |]. by apply stored_insert.
Qed.

Lemma add_many_stops_at_failing_lookup_witness :
  result_of
    (add_many Source
       [EHref (VStr "http://1.1.1.1/hosts/1");
        EElement {| elem_name := "h"; elem_href := Raise (OtherError "SMCConnectionError") |};
        EHref (VStr "http://1.1.1.1/hosts/2")]
       (init None))
  = Raise (OtherError "SMCConnectionError")
  ∧ stored Source
      (store_of
         (add_many Source
            [EHref (VStr "http://1.1.1.1/hosts/1");
             EElement {| elem_name := "h";
                         elem_href := Raise (OtherError "SMCConnectionError") |};
             EHref (VStr "http://1.1.1.1/hosts/2")]
            (init None)))
    = [] ++ resolved [EHref (VStr "http://1.1.1.1/hosts/1")].
Proof.
  apply (add_many_stops_at_failing_lookup Source (init None)
           [EHref (VStr "http://1.1.1.1/hosts/1")]
           [EHref (VStr "http://1.1.1.1/hosts/2")]
           {| elem_name := "h"; elem_href := Raise (OtherError "SMCConnectionError") |}
           (OtherError "SMCConnectionError")).
  - left. reflexivity.
  - repeat constructor.
  - reflexivity.
  - discriminate.
Defined.

(** A marker wipes the references: after [set_any] or [set_none],
    whatever the data was, [add] of an href leaves that href alone in the
    list; and the later of two markers is the one that stays. *)
Theorem marker_discards_references f d (h : value) :
  (set_any ;; add f (EHref h)) d = (Return tt, encode f (Enumerated [h]))
  ∧ (set_none ;; add f (EHref h)) d = (Return tt, encode f (Enumerated [h]))
  ∧ (set_none ;; set_any) d = (Return tt, encode f Any)
  ∧ (set_any ;; set_none) d = (Return tt, encode f NoneV).
Proof.
  assert (∀ k, k = "any" ∨ k = "none" →
            add f (EHref h) (<[ k := VBool true ]> ∅)
            = (Return tt, {[ typeof f := VList [h] ]})) as Hadd.
  { intros k Hk. unfold add, bind. rewrite reset_markers_run.
    assert (is_none (<[ k := VBool true ]> ∅) || is_any (<[ k := VBool true ]> ∅)
            = true) as -> by (by destruct Hk as [-> | ->]).
    unfold add_entry, append, bind, get. cbn beta iota.
    rewrite lookup_singleton_eq. unfold ret, modify. cbn beta iota.
    by rewrite insert_singleton_eq. }
  split; [| split; [| split]].
  - unfold set_any, bind, modify. cbn beta iota. apply Hadd. by left.
  - unfold set_none, bind, modify. cbn beta iota. apply Hadd. by right.
  - unfold set_none, set_any, bind, modify. cbn. by rewrite insert_empty.
  - unfold set_none, set_any, bind, modify. cbn. by rewrite insert_empty.
Qed.

End RuleElementMore.

Section AllMore.
Import RuleElement.
Context {Obj : Type}.
Variable from_href : value → outcome Obj.

(** On data with neither marker nor list, [all] and [all_as_href] raise
    [KeyError]; the empty list and [None] are for the markers only. *)
Theorem all_without_marker_or_list (f : field) (d : gmap string value) :
  is_any d = false → is_none d = false →
  d !! typeof f = None →
  all from_href f d = (Raise (KeyError (VStr (typeof f))), d)
  ∧ all_as_href f d = (Raise (KeyError (VStr (typeof f))), d).
Proof.
  intros Ha Hn Hd. unfold all, all_as_href, subscript, bind, get.
  cbn beta iota. rewrite Ha, Hn. cbn. by rewrite Hd.
Qed.

End AllMore.

Lemma all_without_marker_or_list_witness :
  RuleElement.all (λ h, Return h) RuleElement.Service ∅
  = (Raise (KeyError (VStr "service")), ∅)
  ∧ RuleElement.all_as_href RuleElement.Service ∅
    = (Raise (KeyError (VStr "service")), ∅).
Proof.
  apply (all_without_marker_or_list (λ h, Return h) RuleElement.Service ∅);
    reflexivity.
Defined.

(** ** Options of a rule *)

(** The pair assigned to [mss_enforced_min_max] is the pair read back,
    and no other entry changes; a value that is not a tuple is ignored; a
    tuple that is not a pair raises [ValueError] and stores nothing. *)
Theorem mss_enforced_min_max_assignment (d : gmap string value) :
  (∀ minimum maximum,
     let r := ConnectionTracking.set_mss_enforced_min_max
                (ConnectionTracking.Tuple [minimum; maximum]) d in
     result_of r = Return tt
     ∧ ConnectionTracking.mss_enforced_min_max (store_of r) = (minimum, maximum)
     ∧ ∀ k, k ≠ "mss_enforced_min" → k ≠ "mss_enforced_max" →
            store_of r !! k = d !! k)
  ∧ (∀ v, ConnectionTracking.set_mss_enforced_min_max (ConnectionTracking.Other v) d
          = (Return tt, d))
  ∧ (∀ items, length items ≠ 2 →
       ConnectionTracking.set_mss_enforced_min_max (ConnectionTracking.Tuple items) d
       = (Raise (OtherError "ValueError"), d)).
Proof.
  split; [| split].
  - intros minimum maximum r. subst r.
    unfold ConnectionTracking.set_mss_enforced_min_max, bind, modify,
      ConnectionTracking.mss_enforced_min_max, dict_get, result_of, store_of.
    cbn [fst snd]. split; [done |]. split.
    + rewrite lookup_insert_eq.
      rewrite lookup_insert_ne by done. by rewrite lookup_insert_eq.
    + intros k Hmin Hmax. by rewrite !lookup_insert_ne.
  - done.
  - intros items Hlen. destruct items as [| a [| b [| c items]]]; done.
Qed.

Lemma mss_enforced_min_max_assignment_witness :
  ConnectionTracking.set_mss_enforced_min_max
    (ConnectionTracking.Tuple [VInt 1400]) (ConnectionTracking.init None)
  = (Raise (OtherError "ValueError"), ConnectionTracking.init None).
Proof.
  apply (proj2 (proj2 (mss_enforced_min_max_assignment
                         (ConnectionTracking.init None)))).
  simpl. lia.
Defined.

(** Whatever is assigned to [log_level], [log_accounting_info_mode] is on
    afterwards; an allowed level is the level read back, a rejected one
    leaves the level as it was. *)
Theorem log_level_switches_accounting_on (v : value) (d : gmap string value) :
  let r := LogOptions.set_log_level v d in
  result_of r = Return tt
  ∧ truthy (LogOptions.log_accounting_info_mode (store_of r)) = true
  ∧ LogOptions.log_level (store_of r)
    = if value_in v ["none"; "stored"; "transient"; "essential"; "alert"]
      then v else LogOptions.log_level d.
Proof.
  intros r. subst r.
  unfold LogOptions.set_log_level, LogOptions.set_log_accounting_info_mode,
    LogOptions.log_accounting_info_mode, LogOptions.log_level,
    bind, get, modify, ret, dict_get, result_of, store_of.
  destruct (value_in v _); cbn beta iota.
  - destruct (decide (truthy (default VNone (<[ "log_level" := v ]> d
                                               !! "log_accounting_info_mode"))
                      = true)) as [Hon | Hoff].
    + rewrite Hon. cbn. rewrite Hon. by rewrite lookup_insert_eq.
    + apply not_true_is_false in Hoff. rewrite Hoff. cbn.
      rewrite lookup_insert_eq. rewrite lookup_insert_ne by done.
      by rewrite lookup_insert_eq.
  - destruct (decide (truthy (default VNone (d !! "log_accounting_info_mode"))
                      = true)) as [Hon | Hoff].
    + rewrite Hon. cbn. by rewrite Hon.
    + apply not_true_is_false in Hoff. rewrite Hoff. cbn.
      rewrite lookup_insert_eq. by rewrite lookup_insert_ne.
Qed.

(** An [Action] built without the list of available actions accepts no
    action at all: every assignment to [action] is ignored. With a list,
    an action taken from it is the action read back. *)
Theorem action_needs_available_actions (v : value) (d : gmap string value) :
  (∀ data, Action.set_action (snd (Action.init data None)) v d = (Return tt, d))
  ∧ (∀ _actions, value_in v _actions = true →
       result_of (Action.set_action _actions v d) = Return tt
       ∧ Action.action (store_of (Action.set_action _actions v d)) = v).
Proof.
  split.
  - intros data. unfold Action.init, Action.set_action. cbn [snd].
    by destruct v.
  - intros _actions Hv. unfold Action.set_action. rewrite Hv.
    unfold modify, result_of, store_of, Action.action, dict_get. cbn.
    by rewrite lookup_insert_eq.
Qed.

Lemma action_needs_available_actions_witness :
  Action.action
    (store_of (Action.set_action ["allow"; "discard"] (VStr "discard")
                 (fst (Action.init None None))))
  = VStr "discard".
Proof.
  apply (proj2 (action_needs_available_actions (VStr "discard")
                  (fst (Action.init None None)))).
  reflexivity.
Defined.

(** ** Node commands *)

Lemma try_except_not_found_gone {S A} (m : M S A) (h : exn → M S A) s :
  (∀ e s', result_of (h e s') ≠ Raise ResourceNotFound) →
  result_of (try_except m is_ResourceNotFound h s) ≠ Raise ResourceNotFound.
Proof.
  intros Hh. unfold try_except.
  destruct (m s) as [[a | e] s']; [done |].
  destruct (is_ResourceNotFound e) eqn:He; [apply Hh |].
  unfold result_of. simpl. intros [= ->]. discriminate.
Qed.

Section NodeCommandFacts.
Import Model NodeCommands.
Context {World : Type}.
Variable prepared_request :
  option (string → exn) → string → list (string * value) → value →
  verb → M World SMCResult.
Variable save_to_file : value → value → M World unit.
Variable IOError_text : exn → option string.

(** On a node without the link, [initial_contact], [reset_user_db],
    [diagnostic], [change_ssh_pwd] and [time_sync] make no request and
    raise [NodeCommandFailed]; the last three name the node type. *)
Theorem node_command_unsupported (n : Node) (w : World) :
  (∀ enable_ssh filename,
     find_link_by_name "initial_contact" (node_link n) = None →
     initial_contact prepared_request save_to_file IOError_text n enable_ssh filename w
     = (Raise (NodeCommandFailed "Initial contact not supported on this node type"),
        w))
  ∧ (∀ comment,
       find_link_by_name "reset_user_db" (node_link n) = None →
       reset_user_db prepared_request n comment w
       = (Raise (NodeCommandFailed "Reset userdb not supported on this node type"),
          w))
  ∧ (∀ filter_enabled,
       find_link_by_name "diagnostic" (node_link n) = None →
       diagnostic_list prepared_request n filter_enabled w
       = (Raise (NodeCommandFailed
                   ("Diagnostic not supported on this node type: " +:+ node_type n)),
          w))
  ∧ (∀ pwd comment,
       find_link_by_name "change_ssh_pwd" (node_link n) = None →
       change_ssh_pwd prepared_request n pwd comment w
       = (Raise (NodeCommandFailed
                   ("Change SSH pwd not supported on this node type: "
                    +:+ node_type n)),
          w))
  ∧ (find_link_by_name "time_sync" (node_link n) = None →
     time_sync prepared_request n w
     = (Raise (NodeCommandFailed
                 ("Time sync not supported on this node type: " +:+ node_type n)),
        w)).
Proof.
  unfold initial_contact, reset_user_db, diagnostic_list, change_ssh_pwd, time_sync.
  unfold try_except, bind, _link.
  repeat split; intros; by match goal with H : _ = None |- _ => rewrite H end.
Qed.

(** On a node without the link, [go_online], [go_offline], [go_standby],
    [lock_online], [lock_offline], [reboot] and [send_diagnostic] make no
    request and let [ResourceNotFound] through unchanged. *)
Theorem node_command_link_not_found (n : Node) (w : World) :
  (∀ comment, find_link_by_name "go_online" (node_link n) = None →
     go_online prepared_request n comment w = (Raise ResourceNotFound, w))
  ∧ (∀ comment, find_link_by_name "go_offline" (node_link n) = None →
       go_offline prepared_request n comment w = (Raise ResourceNotFound, w))
  ∧ (∀ comment, find_link_by_name "go_standby" (node_link n) = None →
       go_standby prepared_request n comment w = (Raise ResourceNotFound, w))
  ∧ (∀ comment, find_link_by_name "lock_online" (node_link n) = None →
       lock_online prepared_request n comment w = (Raise ResourceNotFound, w))
  ∧ (∀ comment, find_link_by_name "lock_offline" (node_link n) = None →
       lock_offline prepared_request n comment w = (Raise ResourceNotFound, w))
  ∧ (∀ comment, find_link_by_name "reboot" (node_link n) = None →
       reboot prepared_request n comment w = (Raise ResourceNotFound, w))
  ∧ (∀ settings, find_link_by_name "send_diagnostic" (node_link n) = None →
       send_diagnostic prepared_request n settings w = (Raise ResourceNotFound, w)).
Proof.
  unfold go_online, go_offline, go_standby, lock_online, lock_offline, reboot,
    send_diagnostic.
  unfold bind, _link.
  repeat split; intros; by match goal with H : _ = None |- _ => rewrite H end.
Qed.

(** Whatever the server does, the license operations and the commands
    that guard their link never end in [ResourceNotFound]: also one raised
    by the request itself is swallowed or turned into
    [NodeCommandFailed]. *)
Theorem node_guarded_never_not_found (n : Node) (w : World) :
  result_of (fetch_license prepared_request n w) ≠ Raise ResourceNotFound
  ∧ (∀ id, result_of (bind_license prepared_request n id w) ≠ Raise ResourceNotFound)
  ∧ result_of (unbind_license prepared_request n w) ≠ Raise ResourceNotFound
  ∧ result_of (cancel_unbind_license prepared_request n w) ≠ Raise ResourceNotFound
  ∧ (∀ enable comment,
       result_of (ssh prepared_request n enable comment w) ≠ Raise ResourceNotFound)
  ∧ (∀ comment,
       result_of (reset_user_db prepared_request n comment w) ≠ Raise ResourceNotFound)
  ∧ (∀ pwd comment,
       result_of (change_ssh_pwd prepared_request n pwd comment w)
       ≠ Raise ResourceNotFound)
  ∧ result_of (time_sync prepared_request n w) ≠ Raise ResourceNotFound
  ∧ (∀ filter_enabled,
       result_of (diagnostic_list prepared_request n filter_enabled w)
       ≠ Raise ResourceNotFound)
  ∧ (∀ enable_ssh filename,
       result_of (initial_contact prepared_request save_to_file IOError_text
                    n enable_ssh filename w)
       ≠ Raise ResourceNotFound).
Proof.
  repeat split; intros; apply try_except_not_found_gone; by intros.
Qed.

(** The comprehension of [diagnostic] on entries of the shape
    [{'diagnostic': d}]. *)
Lemma diagnostics_of_vars (settings : list Diagnostic) (w : World) :
  diagnostics_of (map vars settings) w = (Return settings, w).
Proof.
  induction settings as [| [d] settings IH]; [done |].
  cbn [map diagnostics_of]. unfold bind, lift. cbn. unfold bind in IH.
  by rewrite IH.
Qed.

Lemma collect_vars_map (debug : list value) (settings : list Diagnostic) :
  collect_vars debug settings = debug ++ map vars settings.
Proof.
  revert debug. induction settings as [| x settings IH]; intros debug.
  - by rewrite app_nil_r.
  - cbn [collect_vars map]. rewrite IH. by rewrite <- app_assoc.
Qed.

(** What [send_diagnostic] sends is what [diagnostic] reads: when the
    server answers with the body [send_diagnostic] would post for a list
    of settings, [diagnostic] returns that list, in order. An entry that is
    not a dictionary with the one key [diagnostic] makes it raise
    [TypeError]. *)
Theorem diagnostic_reads_what_send_diagnostic_sends
    (n : Node) (href : string) (filter_enabled : value)
    (settings : list Diagnostic) (result : SMCResult) (w w' : World) :
  find_link_by_name "diagnostic" (node_link n) = Some href →
  prepared_request (Some NodeCommandFailed) href
    [("filter_enabled", filter_enabled)] VNone Read w
  = (Return result, w') →
  (json result = VDict [("diagnostics", VList (collect_vars [] settings))] →
   diagnostic_list prepared_request n filter_enabled w = (Return settings, w'))
  ∧ (∀ before x after,
       json result
       = VDict [("diagnostics", VList (map vars before ++ x :: after))] →
       Diagnostic_kwargs x = Raise TypeError →
       diagnostic_list prepared_request n filter_enabled w = (Raise TypeError, w')).
Proof.
  intros Hlink Hreq.
  assert (∀ entries r,
            json result = VDict [("diagnostics", VList entries)] →
            diagnostics_of entries w' = (r, w') →
            (∀ e, r = Raise e → is_ResourceNotFound e = false) →
            diagnostic_list prepared_request n filter_enabled w = (r, w')) as Hrun.
  { intros entries r Hjson Hentries Hr.
    unfold diagnostic_list, try_except, bind, _link.
    rewrite Hlink. cbn beta iota. unfold ret at 1. rewrite Hreq, Hjson. cbn.
    rewrite Hentries. destruct r as [a | e]; [done |].
    by rewrite (Hr e eq_refl). }
  split.
  - intros Hjson. apply (Hrun _ _ Hjson); [| done].
    rewrite collect_vars_map. apply diagnostics_of_vars.
  - intros before x after Hjson Hx. apply (Hrun _ _ Hjson); [| by intros e [= <-]].
    clear Hjson. induction before as [| [d] before IH].
    + cbn. unfold bind, lift. by rewrite Hx.
    + cbn. unfold bind, lift. cbn. unfold bind in IH. by rewrite IH.
Qed.

End NodeCommandFacts.

Lemma node_command_unsupported_witness :
  NodeCommands.time_sync Recording.prepared_request Recording.virtual_node []
  = (Raise (NodeCommandFailed
              "Time sync not supported on this node type: virtual_fw_node"),
     []).
Proof.
  apply (proj2 (proj2 (proj2 (proj2
           (node_command_unsupported Recording.prepared_request
              Fixtures.save_to_file Fixtures.IOError_text
              Recording.virtual_node []))))).
  reflexivity.
Defined.

Lemma node_command_link_not_found_witness :
  NodeCommands.reboot Recording.prepared_request Recording.virtual_node VNone []
  = (Raise ResourceNotFound, []).
Proof.
  apply (proj1 (proj2 (proj2 (proj2 (proj2 (proj2
           (node_command_link_not_found Recording.prepared_request
              Recording.virtual_node []))))))).
  reflexivity.
Defined.

Lemma diagnostic_reads_what_send_diagnostic_sends_witness :
  NodeCommands.diagnostic_list Fixtures.diagnostic_request Fixtures.firewall_node
    (VBool false) []
  = (Return Fixtures.settings, ["http://1.1.1.1/single_fw/1/node/1/diagnostic"]).
Proof.
  refine (proj1 (diagnostic_reads_what_send_diagnostic_sends
                   Fixtures.diagnostic_request Fixtures.firewall_node
                   "http://1.1.1.1/single_fw/1/node/1/diagnostic" (VBool false)
                   Fixtures.settings _ [] _ _ _) _); reflexivity.
Defined.

(** ** Resources of an engine *)

Section EngineResourceFacts.
Import Model EngineResources.
Context {World : Type}.
Variable _get_resource : string → M World value.
Variable Meta_kwargs : value → outcome Meta.
Variable load : Engine → M World Engine.
Variable UnsupportedInterfaceType : string → exn.
Context {Obj : Type}.
Variable from_href : value → outcome Obj.

Lemma engine_type_loaded (e : Engine) (m : Meta) (w : World) :
  engine_meta e = Some m → engine_type load e w = (Return (meta_type m), w).
Proof. intros Hm. unfold engine_type, bind. rewrite Hm. cbn. by rewrite Hm. Qed.

(** With the [internal_gateway] link there, the property gives [None]
    when the resource fetched is empty, and otherwise the gateway built
    from the last entry of the list fetched. *)
Theorem internal_gateway_of_resource (e : Engine) (href : string)
    (result : value) (w w' : World) :
  find_link_by_name "internal_gateway" (engine_link e) = Some href →
  _get_resource href w = (Return result, w') →
  (truthy result = false →
   internal_gateway _get_resource Meta_kwargs load e w = (Return None, w'))
  ∧ (∀ items x m,
       result = VList (items ++ [x]) →
       Meta_kwargs x = Return m →
       internal_gateway _get_resource Meta_kwargs load e w
       = (Return (Some {| gateway_meta := m |}), w')).
Proof.
  intros Hlink Hget.
  assert (_get_resource_by_link _get_resource (engine_link e) "internal_gateway" w
          = (Return result, w')) as Hfetch.
  { unfold _get_resource_by_link, bind, _link. rewrite Hlink.
    unfold ret. by rewrite Hget. }
  split.
  - intros Hempty. unfold internal_gateway, try_except, bind at 1.
    by rewrite Hfetch, Hempty.
  - intros items x m -> Hm. unfold internal_gateway, try_except, bind at 1.
    rewrite Hfetch.
    assert (truthy (VList (items ++ [x])) = true) as -> by by destruct items.
    unfold bind, value_pop, lift. rewrite last_snoc.
    unfold ret at 1. by rewrite Hm.
Qed.

(** On a loaded engine, [internal_gateway] never ends in
    [ResourceNotFound], whatever the link list and the server do. *)
Theorem internal_gateway_never_not_found (e : Engine) (m : Meta) (w : World) :
  engine_meta e = Some m →
  result_of (internal_gateway _get_resource Meta_kwargs load e w)
  ≠ Raise ResourceNotFound.
Proof.
  intros Hm. apply try_except_not_found_gone. intros x s.
  unfold bind. by rewrite (engine_type_loaded e m s Hm).
Qed.

(** On a loaded engine without the link, [virtual_resource] raises
    [UnsupportedEngineFeature], and [physical_interface],
    [virtual_physical_interface], [tunnel_interface], [modem_interface],
    [adsl_interface], [wireless_interface] and
    [switch_physical_interface] raise [UnsupportedInterfaceType], each
    with its own message around the engine type; [permissions] raises
    [UnsupportedEngineFeature] about the API version. None makes a
    request. [interface], which has no guard, lets [ResourceNotFound]
    through. *)
Theorem engine_resource_unsupported (e : Engine) (m : Meta) (w : World) :
  engine_meta e = Some m →
  (find_link_by_name "virtual_resources" (engine_link e) = None →
   virtual_resource load e w
   = (Raise (UnsupportedEngineFeature
               ("This engine does not support virtual resources; engine type: "
                +:+ meta_type m)), w))
  ∧ (find_link_by_name "physical_interface" (engine_link e) = None →
     physical_interface load UnsupportedInterfaceType e w
     = (Raise (UnsupportedInterfaceType
                 ("Engine type: " +:+ meta_type m
                  +:+ " does not support the physical interface type")), w))
  ∧ (find_link_by_name "virtual_physical_interface" (engine_link e) = None →
     virtual_physical_interface load UnsupportedInterfaceType e w
     = (Raise (UnsupportedInterfaceType
                 ("Only virtual engines support the virtual physical interface "
                  +:+ "type. Engine type is: " +:+ meta_type m)), w))
  ∧ (find_link_by_name "tunnel_interface" (engine_link e) = None →
     tunnel_interface load UnsupportedInterfaceType e w
     = (Raise (UnsupportedInterfaceType
                 ("Tunnel interfaces are only supported on layer 3 single "
                  +:+ "engines or clusters; Engine type is: " +:+ meta_type m)), w))
  ∧ (find_link_by_name "modem_interface" (engine_link e) = None →
     modem_interface _get_resource load UnsupportedInterfaceType e w
     = (Raise (UnsupportedInterfaceType
                 ("Modem interfaces are not supported on this engine type: "
                  +:+ meta_type m)), w))
  ∧ (find_link_by_name "adsl_interface" (engine_link e) = None →
     adsl_interface _get_resource load UnsupportedInterfaceType e w
     = (Raise (UnsupportedInterfaceType
                 ("ADSL interfaces are not supported on this engine type: "
                  +:+ meta_type m)), w))
  ∧ (find_link_by_name "wireless_interface" (engine_link e) = None →
     wireless_interface _get_resource load UnsupportedInterfaceType e w
     = (Raise (UnsupportedInterfaceType
                 ("Wireless interfaces are not supported on this engine type: "
                  +:+ meta_type m)), w))
  ∧ (find_link_by_name "switch_physical_interface" (engine_link e) = None →
     switch_physical_interface _get_resource load UnsupportedInterfaceType e w
     = (Raise (UnsupportedInterfaceType
                 ("Switch interfaces are not supported on this engine type: "
                  +:+ meta_type m)), w))
  ∧ (find_link_by_name "permissions" (engine_link e) = None →
     permissions _get_resource from_href e w
     = (Raise (UnsupportedEngineFeature
                 ("Engine permissions are only supported when using SMC API "
                  +:+ "version 6.1 and newer.")), w))
  ∧ (find_link_by_name "interfaces" (engine_link e) = None →
     interface e w = (Raise ResourceNotFound, w)).
Proof.
  intros Hm.
  unfold virtual_resource, physical_interface, virtual_physical_interface,
    tunnel_interface, modem_interface, adsl_interface, wireless_interface,
    switch_physical_interface, permissions, interface.
  unfold try_except, _get_resource_by_link, bind at 1, _link.
  repeat split; intros Hlink;
    unfold bind at 1; try unfold bind at 1; rewrite Hlink; cbn beta iota;
    unfold raise at 1; cbn beta iota;
    try (unfold bind; rewrite (engine_type_loaded e m w Hm)); done.
Qed.

(** On an engine that is not loaded and cannot be, the accessors that
    put the engine type in their message raise what [load] raised, not the
    unsupported-feature error. *)
Theorem unsupported_feature_needs_engine_type (e : Engine) (x : exn) (w w' : World) :
  engine_meta e = None →
  load e w = (Raise x, w') →
  (find_link_by_name "internal_gateway" (engine_link e) = None →
   internal_gateway _get_resource Meta_kwargs load e w = (Raise x, w'))
  ∧ (find_link_by_name "virtual_resources" (engine_link e) = None →
     virtual_resource load e w = (Raise x, w'))
  ∧ (find_link_by_name "physical_interface" (engine_link e) = None →
     physical_interface load UnsupportedInterfaceType e w = (Raise x, w')).
Proof.
  intros Hm Hload.
  assert (∀ A (k : string → M World A),
            bind (engine_type load e) k w = (Raise x, w')) as Htype.
  { intros A k. unfold engine_type, bind. by rewrite Hm, Hload. }
  unfold internal_gateway, virtual_resource, physical_interface.
  unfold try_except, _get_resource_by_link, bind at 1, _link.
  repeat split; intros Hlink;
    unfold bind at 1; try unfold bind at 1; rewrite Hlink; cbn beta iota;
    unfold raise at 1; cbn beta iota; apply Htype.
Qed.

End EngineResourceFacts.

Lemma internal_gateway_of_resource_witness :
  Model.internal_gateway Recording._get_resource Recording.Meta_kwargs
    Recording.load Fixtures.layer3_engine []
  = (Return None, ["http://1.1.1.1/single_fw/1/internal_gateway"]).
Proof.
  refine (proj1 (internal_gateway_of_resource Recording._get_resource
                   Recording.Meta_kwargs Recording.load Fixtures.layer3_engine
                   "http://1.1.1.1/single_fw/1/internal_gateway" (VList []) [] _
                   _ _) _); reflexivity.
Defined.

Lemma internal_gateway_never_not_found_witness :
  result_of (Model.internal_gateway Recording._get_resource Recording.Meta_kwargs
               Recording.load Recording.layer2_engine [])
  ≠ Raise ResourceNotFound.
Proof.
  apply (internal_gateway_never_not_found Recording._get_resource
           Recording.Meta_kwargs Recording.load Recording.layer2_engine
           _ [] eq_refl).
Defined.

Lemma engine_resource_unsupported_witness :
  EngineResources.tunnel_interface Recording.load Fixtures.UnsupportedInterfaceType
    Recording.layer2_engine []
  = (Raise (Fixtures.UnsupportedInterfaceType
              "Tunnel interfaces are only supported on layer 3 single engines or clusters; Engine type is: single_layer2"),
     []).
Proof.
  refine (proj1 (proj2 (proj2 (proj2
            (engine_resource_unsupported Recording._get_resource Recording.load
               Fixtures.UnsupportedInterfaceType (λ h, Return h)
               Recording.layer2_engine _ [] eq_refl)))) _).
  reflexivity.
Defined.

Lemma unsupported_feature_needs_engine_type_witness :
  EngineResources.virtual_resource Recording.load Fixtures.unloaded_engine []
  = (Raise (LoadEngineFailed "Cannot load engine"), []).
Proof.
  refine (proj1 (proj2
            (unsupported_feature_needs_engine_type Recording._get_resource
               Recording.Meta_kwargs Recording.load
               Fixtures.UnsupportedInterfaceType Fixtures.unloaded_engine
               _ [] [] eq_refl eq_refl)) _).
  reflexivity.
Defined.

(** ** The configuration of a new engine *)

Section EngineCreateFacts.
Import EngineCreate.
Context {World : Type}.
Variable get_first_log_server : M World value.
Variable get_ospf_default_profile : M World value.

Lemma node_loop_map (node_list : list value) (name node_type : string) (ids : list Z) :
  node_loop node_list name node_type ids
  = node_list ++ map (Node_create name node_type) ids.
Proof.
  revert node_list. induction ids as [| i ids IH]; intros node_list.
  - by rewrite app_nil_r.
  - cbn [node_loop map]. rewrite IH. by rewrite <- app_assoc.
Qed.

Lemma domain_server_loop_map (acc : list value) (rank_i : Z) (entries : list value) :
  domain_server_loop acc rank_i entries
  = acc ++ map (λ entry, VDict [("rank", VInt rank_i); ("value", entry)]) entries.
Proof.
  revert acc. induction entries as [| x entries IH]; intros acc.
  - by rewrite app_nil_r.
  - cbn [domain_server_loop map]. rewrite IH. by rewrite <- app_assoc.
Qed.

Lemma lookup_if_insert (b : bool) (k k' : string) (v : value) (m : gmap string value) :
  k ≠ k' → (if b then <[ k' := v ]> m else m) !! k = m !! k.
Proof. intros Hk. destruct b; [by rewrite lookup_insert_ne | done]. Qed.

Lemma is_Some_if_insert (b : bool) (k : string) (v : value) (m : gmap string value) :
  m !! k = None → is_Some ((if b then <[ k := v ]> m else m) !! k) ↔ b = true.
Proof.
  intros Hk. destruct b.
  - rewrite lookup_insert_eq. split; [done | eauto].
  - rewrite Hk. split; [by intros [? ?] | done].
Qed.

(** What a configuration that [create] returns is made of. *)
Lemma create_returns (a : arguments) (w w' : World) (cfg : gmap string value) :
  create get_first_log_server get_ospf_default_profile a w = (Return cfg, w') →
  ∃ dns lsr w1 w2,
    (if truthy (domain_server_address a) then
       entries <- iterate (domain_server_address a) ;;
       ret (domain_server_loop [] 0 entries)
     else ret []) w = (Return dns, w1)
    ∧ (if negb (truthy (log_server_ref a)) && negb (node_type_is_literal a) then
         get_first_log_server
       else ret (log_server_ref a)) w1 = (Return lsr, w2)
    ∧ cfg !! "name" = Some (VStr (name a))
    ∧ cfg !! "nodes"
      = Some (VList (node_loop [] (name a) (node_type a) (seqZ 1 (nodes a))))
    ∧ cfg !! "domain_server_address" = Some (VList dns)
    ∧ cfg !! "log_server_ref" = Some lsr
    ∧ cfg !! "physicalInterfaces" = Some (physical_interfaces a)
    ∧ (is_Some (cfg !! "antivirus") ↔ truthy (enable_antivirus a) = true)
    ∧ (is_Some (cfg !! "gti_settings") ↔ truthy (enable_gti a) = true)
    ∧ (is_Some (cfg !! "default_nat") ↔ truthy (default_nat a) = true)
    ∧ (is_Some (cfg !! "location_ref") ↔ truthy (location_ref a) = true)
    ∧ (is_Some (cfg !! "dynamic_routing") ↔ truthy (enable_ospf a) = true).
Proof.
  unfold create.
  match goal with
  | |- bind ?m ?k w = _ → _ => set (m1 := m); set (k1 := k)
  end.
  unfold bind at 1. destruct (m1 w) as [[dns | x] w1] eqn:Hdns; [| done].
  subst k1. cbv beta.
  match goal with
  | |- bind ?m ?k w1 = _ → _ => set (m2 := m); set (k2 := k)
  end.
  unfold bind at 1. destruct (m2 w1) as [[lsr | x] w2] eqn:Hlsr; [| done].
  subst k2. cbv beta zeta.
  set (base := list_to_map _ : gmap string value).
  set (c1 := if truthy (enable_antivirus a) then _ else base).
  set (c2 := if truthy (enable_gti a) then _ else c1).
  set (c3 := if truthy (default_nat a) then _ else c2).
  set (c4 := if truthy (location_ref a) then _ else c3).
  assert (∀ k, k ≠ "antivirus" → k ≠ "gti_settings" → k ≠ "default_nat" →
               k ≠ "location_ref" → c4 !! k = base !! k) as Hbase.
  { intros k ? ? ? ?. subst c4 c3 c2 c1. by rewrite !lookup_if_insert. }
  assert (is_Some (c4 !! "antivirus") ↔ truthy (enable_antivirus a) = true) as Hav.
  { subst c4 c3 c2 c1. rewrite !lookup_if_insert by done.
    by apply is_Some_if_insert. }
  assert (is_Some (c4 !! "gti_settings") ↔ truthy (enable_gti a) = true) as Hgti.
  { subst c4 c3 c2. rewrite !lookup_if_insert by done.
    apply is_Some_if_insert. subst c1. by rewrite lookup_if_insert. }
  assert (is_Some (c4 !! "default_nat") ↔ truthy (default_nat a) = true) as Hnat.
  { subst c4 c3. rewrite !lookup_if_insert by done.
    apply is_Some_if_insert. subst c2 c1. by rewrite !lookup_if_insert. }
  assert (is_Some (c4 !! "location_ref") ↔ truthy (location_ref a) = true) as Hloc.
  { subst c4. apply is_Some_if_insert. subst c3 c2 c1.
    by rewrite !lookup_if_insert. }
  assert (c4 !! "dynamic_routing" = None) as Hdyn by by rewrite Hbase.
  clearbody c4.
  intros Hrun. exists dns, lsr, w1, w2. split; [done |]. split; [done |].
  destruct (truthy (enable_ospf a)).
  - unfold bind in Hrun.
    match type of Hrun with
    | context [let (_, _) := ?c in _] => destruct c as [[profile | x] w3]
    end; [| done].
    injection Hrun as <- _.
    rewrite !lookup_insert_ne by done. rewrite !Hbase by done.
    rewrite lookup_insert_eq.
    repeat split; try done; try tauto; eauto.
  - injection Hrun as <- _. rewrite !Hbase by done. rewrite Hdyn.
    repeat split; try done; try tauto; by intros [? ?].
Qed.

(** A configuration [Engine.create] returns has one node per id from 1
    to [nodes], in that order and named after the engine with the id in
    decimal; none when [nodes] is not positive. *)
Theorem engine_create_nodes (a : arguments) (w w' : World) (cfg : gmap string value) :
  create get_first_log_server get_ospf_default_profile a w = (Return cfg, w') →
  ∃ node_list,
    cfg !! "nodes" = Some (VList node_list)
    ∧ length node_list = Z.to_nat (nodes a)
    ∧ ∀ i : nat,
        (Z.of_nat i < nodes a)%Z →
        node_list !! i
        = Some (VDict [(node_type a,
                        VDict [("activate_test", VBool true);
                               ("disabled", VBool false);
                               ("loopback_node_dedicated_interface", VList []);
                               ("name", VStr (name a +:+ " node "
                                              +:+ pretty (1 + Z.of_nat i)%Z));
                               ("nodeid", VInt (1 + Z.of_nat i))])]).
Proof.
  intros Hrun.
  destruct (create_returns a w w' cfg Hrun) as (_ & _ & _ & _ & _ & _ & _ & Hn & _).
  rewrite node_loop_map in Hn. cbn [app] in Hn.
  eexists. split; [exact Hn |]. split.
  - by rewrite length_map, length_seqZ.
  - intros i Hi. rewrite list_lookup_fmap, lookup_seqZ_lt by done. done.
Qed.

(** The DNS servers of a configuration [Engine.create] returns are the
    addresses given, in order, every one with rank 0; an address given as
    one string is taken apart into its characters. *)
Theorem engine_create_domain_servers
    (a : arguments) (w w' : World) (cfg : gmap string value) :
  create get_first_log_server get_ospf_default_profile a w = (Return cfg, w') →
  (truthy (domain_server_address a) = false →
   cfg !! "domain_server_address" = Some (VList []))
  ∧ (∀ entries,
       domain_server_address a = VList entries →
       cfg !! "domain_server_address"
       = Some (VList (map (λ entry, VDict [("rank", VInt 0); ("value", entry)])
                          entries)))
  ∧ (∀ address,
       domain_server_address a = VStr address →
       cfg !! "domain_server_address"
       = Some (VList (map (λ entry, VDict [("rank", VInt 0); ("value", entry)])
                          (chars address)))).
Proof.
  intros Hrun.
  destruct (create_returns a w w' cfg Hrun)
    as (dns & lsr & w1 & w2 & Hdns & _ & _ & _ & -> & _).
  split; [| split].
  - intros Hfalse. rewrite Hfalse in Hdns. by injection Hdns as <- _.
  - intros entries Hlist. rewrite Hlist in Hdns. destruct entries as [| x entries].
    + by injection Hdns as <- _.
    + cbn in Hdns. injection Hdns as <- _.
      by rewrite (domain_server_loop_map [VDict [("rank", VInt 0); ("value", x)]]).
  - intros address Hstr. rewrite Hstr in Hdns.
    destruct address as [| c address].
    + by injection Hdns as <- _.
    + cbn in Hdns. injection Hdns as <- _.
      by rewrite (domain_server_loop_map [VDict [("rank", VInt 0); ("value", _)]]).
Qed.

(** The log server of a configuration [Engine.create] returns is the one
    given when one is given, or when the node type is the literal the
    method compares it with; otherwise it is what the search for the first
    log server returned. *)
Theorem engine_create_log_server
    (a : arguments) (w w' : World) (cfg : gmap string value) :
  create get_first_log_server get_ospf_default_profile a w = (Return cfg, w') →
  (truthy (log_server_ref a) = true ∨ node_type_is_literal a = true →
   cfg !! "log_server_ref" = Some (log_server_ref a))
  ∧ (truthy (log_server_ref a) = false → node_type_is_literal a = false →
     ∃ found w1 w2,
       get_first_log_server w1 = (Return found, w2)
       ∧ cfg !! "log_server_ref" = Some found).
Proof.
  intros Hrun.
  destruct (create_returns a w w' cfg Hrun)
    as (dns & lsr & w1 & w2 & _ & Hlsr & _ & _ & _ & -> & _).
  split.
  - intros [Hgiven | Hliteral].
    + rewrite Hgiven in Hlsr. by injection Hlsr as <- _.
    + rewrite Hliteral, andb_false_r in Hlsr. by injection Hlsr as <- _.
  - intros Hnone Hother. rewrite Hnone, Hother in Hlsr. by exists lsr, w1, w2.
Qed.

(** A configuration [Engine.create] returns always has the five base
    entries, and has each optional entry exactly when its flag is
    truthy. *)
Theorem engine_create_optional_entries
    (a : arguments) (w w' : World) (cfg : gmap string value) :
  create get_first_log_server get_ospf_default_profile a w = (Return cfg, w') →
  cfg !! "name" = Some (VStr (name a))
  ∧ is_Some (cfg !! "nodes")
  ∧ is_Some (cfg !! "domain_server_address")
  ∧ is_Some (cfg !! "log_server_ref")
  ∧ cfg !! "physicalInterfaces" = Some (physical_interfaces a)
  ∧ (is_Some (cfg !! "antivirus") ↔ truthy (enable_antivirus a) = true)
  ∧ (is_Some (cfg !! "gti_settings") ↔ truthy (enable_gti a) = true)
  ∧ (is_Some (cfg !! "default_nat") ↔ truthy (default_nat a) = true)
  ∧ (is_Some (cfg !! "location_ref") ↔ truthy (location_ref a) = true)
  ∧ (is_Some (cfg !! "dynamic_routing") ↔ truthy (enable_ospf a) = true).
Proof.
  intros Hrun.
  destruct (create_returns a w w' cfg Hrun)
    as (dns & lsr & w1 & w2 & _ & _ & Hname & Hnodes & Hdns & Hlsr & Hphys & Hopt).
  rewrite Hnodes, Hdns, Hlsr. repeat split; eauto; by apply Hopt.
Qed.

End EngineCreateFacts.

Lemma engine_create_nodes_witness :
  ∃ node_list,
    EngineFixtures.cluster_cfg !! "nodes" = Some (VList node_list)
    ∧ length node_list = 3
    ∧ ∀ i : nat,
        (Z.of_nat i < 3)%Z →
        node_list !! i
        = Some (VDict [("firewall_node",
                        VDict [("activate_test", VBool true);
                               ("disabled", VBool false);
                               ("loopback_node_dedicated_interface", VList []);
                               ("name", VStr ("fw" +:+ " node "
                                              +:+ pretty (1 + Z.of_nat i)%Z));
                               ("nodeid", VInt (1 + Z.of_nat i))])]).
Proof.
  apply (engine_create_nodes EngineFixtures.get_first_log_server
           EngineFixtures.get_ospf_default_profile EngineFixtures.cluster []
           ["log_server"] EngineFixtures.cluster_cfg).
  reflexivity.
Defined.

Lemma engine_create_domain_servers_witness :
  EngineFixtures.cluster_cfg !! "domain_server_address"
  = Some (VList [VDict [("rank", VInt 0); ("value", VStr "8.8.8.8")];
                 VDict [("rank", VInt 0); ("value", VStr "8.8.4.4")]]).
Proof.
  refine (proj1 (proj2 (engine_create_domain_servers EngineFixtures.get_first_log_server
                          EngineFixtures.get_ospf_default_profile EngineFixtures.cluster []
                          ["log_server"] EngineFixtures.cluster_cfg _))
            [VStr "8.8.8.8"; VStr "8.8.4.4"] _); reflexivity.
Defined.

Lemma engine_create_log_server_witness :
  ∃ found w1 w2,
    EngineFixtures.get_first_log_server w1 = (Return found, w2)
    ∧ EngineFixtures.cluster_cfg !! "log_server_ref" = Some found.
Proof.
  refine (proj2 (engine_create_log_server EngineFixtures.get_first_log_server
                   EngineFixtures.get_ospf_default_profile EngineFixtures.cluster []
                   ["log_server"] EngineFixtures.cluster_cfg _) _ _); reflexivity.
Defined.

Lemma engine_create_optional_entries_witness :
  is_Some (EngineFixtures.cluster_cfg !! "antivirus") ↔ true = true.
Proof.
  refine (proj1 (proj2 (proj2 (proj2 (proj2 (proj2
            (engine_create_optional_entries EngineFixtures.get_first_log_server
               EngineFixtures.get_ospf_default_profile EngineFixtures.cluster []
               ["log_server"] EngineFixtures.cluster_cfg _))))))).
  reflexivity.
Defined.

(** ** Hardware status *)

Section HardwareStatusFacts.
Import Model HardwareStatus.
Context {S : Type}.

Lemma statuses_loop_run (totals : list Status)
    (statuses : list (list (string * value))) (s : S) :
  statuses_loop totals (map VDict statuses) s
  = (Return (totals ++ map status_of statuses), s).
Proof.
  revert totals. induction statuses as [| fields statuses IH]; intros totals.
  - cbn. unfold ret. by rewrite app_nil_r.
  - cbn [map statuses_loop]. unfold bind, value_get, ret. cbn beta iota.
    rewrite IH. by rewrite <- app_assoc.
Qed.

Lemma items_loop_run (totals : list Status) (entries : list value)
    (groups : list (list (list (string * value)))) (s : S) :
  Forall2 item_with entries groups →
  items_loop totals entries s
  = (Return (totals ++ map status_of (concat groups)), s).
Proof.
  intros Hitems. revert totals.
  induction Hitems as [| item statuses entries groups Hitem _ IH]; intros totals.
  - cbn. unfold ret. by rewrite app_nil_r.
  - destruct Hitem as (fields & -> & Hstatuses).
    cbn [items_loop]. unfold bind at 1, value_get, ret at 1. cbn beta iota.
    rewrite Hstatuses. unfold bind at 1, iterate, ret at 1. cbn beta iota.
    unfold bind at 1. rewrite statuses_loop_run. rewrite IH.
    cbn [concat]. by rewrite map_app, app_assoc.
Qed.

(** [items] flattens the statuses of all the items, in order, into named
    tuples, a field a status lacks being [None]; on a status without the
    [items] entry it raises [TypeError]. *)
Theorem hardware_status_items (fields : list (string * value)) (s : S) :
  (∀ entries groups,
     assoc_get "items" fields = VList entries →
     Forall2 item_with entries groups →
     items (VDict fields) s = (Return (map status_of (concat groups)), s))
  ∧ (assoc_get "items" fields = VNone →
     items (VDict fields) s = (Raise TypeError, s)).
Proof.
  split.
  - intros entries groups Hentries Hitems.
    unfold items, bind at 1, value_get, ret at 1. cbn beta iota.
    rewrite Hentries. unfold bind, iterate, ret at 1. cbn beta iota.
    by rewrite (items_loop_run [] entries groups s Hitems).
  - intros Hnone. unfold items, bind, value_get, ret. cbn beta iota.
    by rewrite Hnone.
Qed.

End HardwareStatusFacts.

Lemma hardware_status_items_witness :
  HardwareStatus.items (S := unit)
    (VDict [("name", VStr "File Systems");
            ("items",
             VList [VDict [("statuses",
                            VList [VDict [("label", VStr "Root");
                                          ("param", VStr "Usage");
                                          ("value", VStr "12")];
                                   VDict [("label", VStr "Root");
                                          ("param", VStr "Size")]])];
                    VDict [("statuses", VList [])]])]) tt
  = (Return [{| HardwareStatus.label := VStr "Root";
                HardwareStatus.param := VStr "Usage";
                HardwareStatus.value_ := VStr "12" |};
             {| HardwareStatus.label := VStr "Root";
                HardwareStatus.param := VStr "Size";
                HardwareStatus.value_ := VNone |}], tt).
Proof.
  refine (proj1 (hardware_status_items _ tt) _
            [[[("label", VStr "Root"); ("param", VStr "Usage"); ("value", VStr "12")];
              [("label", VStr "Root"); ("param", VStr "Size")]]; []] _ _).
  - reflexivity.
  - repeat constructor; eexists; split; reflexivity.
Defined.

(** ** Locking a policy, exporting elements *)

Section PolicyFacts.
Import Model PolicyCommands.
Context {World : Type}.
Variable prepared_request :
  option (string → exn) → string → list (string * value) → value →
  verb → M World SMCResult.
Variable PolicyCommandFailed : string → exn.

(** On a policy without the link, [open] and [save] return normally and
    make no request, while [force_unlock] lets [ResourceNotFound]
    through; and whatever the server does, [open] and [save] never end in
    [ResourceNotFound]. *)
Theorem policy_lock_link_absent (policy_link : list (string * string)) (w : World) :
  (find_link_by_name "open" policy_link = None →
   open prepared_request PolicyCommandFailed policy_link w = (Return tt, w))
  ∧ (find_link_by_name "save" policy_link = None →
     save prepared_request PolicyCommandFailed policy_link w = (Return tt, w))
  ∧ (find_link_by_name "force_unlock" policy_link = None →
     force_unlock prepared_request PolicyCommandFailed policy_link w
     = (Raise ResourceNotFound, w))
  ∧ result_of (open prepared_request PolicyCommandFailed policy_link w)
    ≠ Raise ResourceNotFound
  ∧ result_of (save prepared_request PolicyCommandFailed policy_link w)
    ≠ Raise ResourceNotFound.
Proof.
  split; [| split; [| split; [| split]]].
  - intros Hlink. unfold open, try_except, bind, _link. by rewrite Hlink.
  - intros Hlink. unfold save, try_except, bind, _link. by rewrite Hlink.
  - intros Hlink. unfold force_unlock, bind, _link. by rewrite Hlink.
  - by apply try_except_not_found_gone.
  - by apply try_except_not_found_gone.
Qed.

End PolicyFacts.

Lemma policy_lock_link_absent_witness :
  PolicyCommands.open Recording.prepared_request OtherError Recording.policy_link []
  = (Return tt, []).
Proof.
  apply (proj1 (policy_lock_link_absent Recording.prepared_request OtherError
                  Recording.policy_link [])).
  reflexivity.
Defined.

Section ExportFacts.
Import Model System.
Context {World : Type}.
Variable prepared_request :
  option (string → exn) → string → list (string * value) → value →
  verb → M World SMCResult.
Context {Updates : Type}.
Variable task_handler : value → value → value → M World Updates.

(** An element type that is not one of the valid types is exported as
    [all]: the call is in every respect the call with ['all']; a valid
    type is sent as it is. *)
Theorem export_elements_unknown_type_is_all
    (system_link : list (string * string)) (filename typeof wait_for_finish : value)
    (w : World) :
  (value_in typeof valid_types = false →
   export_elements prepared_request task_handler system_link filename typeof
     wait_for_finish w
   = export_elements prepared_request task_handler system_link filename (VStr "all")
       wait_for_finish w)
  ∧ (∀ href element w',
       value_in typeof valid_types = true →
       find_link_by_name "export_elements" system_link = Some href →
       prepared_request None href [("recursive", VBool true); ("type", typeof)]
         VNone Create w = (Return element, w') →
       export_elements prepared_request task_handler system_link filename typeof
         wait_for_finish w
       = task_handler (json element) wait_for_finish filename w').
Proof.
  split.
  - intros Hv. unfold export_elements. by rewrite Hv.
  - intros href element w' Hv Hlink Hreq.
    unfold export_elements. rewrite Hv. cbn [negb]. cbv zeta.
    unfold bind, _link. rewrite Hlink. cbn beta iota.
    unfold ret. by rewrite Hreq.
Qed.

End ExportFacts.

Lemma export_elements_unknown_type_is_all_witness :
  System.export_elements Recording.prepared_request (λ body _ _, ret body)
    [("export_elements", "http://1.1.1.1/system/export_elements")]
    (VStr "export.zip") (VStr "hosts") (VBool false) []
  = System.export_elements Recording.prepared_request (λ body _ _, ret body)
      [("export_elements", "http://1.1.1.1/system/export_elements")]
      (VStr "export.zip") (VStr "all") (VBool false) [].
Proof.
  apply (proj1 (export_elements_unknown_type_is_all Recording.prepared_request
                  (λ body _ _, ret body)
                  [("export_elements", "http://1.1.1.1/system/export_elements")]
                  (VStr "export.zip") (VStr "hosts") (VBool false) [])).
  reflexivity.
Defined.

(** ** Host elements *)

Section HostFacts.
Import Host.
Context {World : Type}.
Variable get_json_template : string → M World (gmap string value).
Variable element_entry_point : value → M World value.

(** [Host.create] fills the template with the name, the address and the
    comment, the empty string standing for a comment of [None]; appends
    the secondary address, if one was given, to the template's list; and
    sets [href] to the entry point of hosts. When a secondary address was
    given and the template has no [secondary] entry it raises [KeyError],
    with the three fields already in [json] and [href] not set. *)
Theorem host_create (name ip secondary_ip comment : value)
    (template : gmap string value) (w w1 : World) :
  get_json_template "host.json" w = (Return template, w1) →
  let this := init name ip secondary_ip comment in
  let filled :=
    <[ "comment" := match comment with VNone => VStr "" | c => c end ]>
      (<[ "address" := ip ]> (<[ "name" := name ]> template)) in
  (∀ h w2,
     element_entry_point (VStr "host") w1 = (Return h, w2) →
     (truthy secondary_ip = false →
      create get_json_template element_entry_point (this, w)
      = (Return (with_href (with_json this (Some filled)) h),
         (with_href (with_json this (Some filled)) h, w2)))
     ∧ (∀ items,
          truthy secondary_ip = true →
          template !! "secondary" = Some (VList items) →
          let json := <[ "secondary" := VList (items ++ [secondary_ip]) ]> filled in
          create get_json_template element_entry_point (this, w)
          = (Return (with_href (with_json this (Some json)) h),
             (with_href (with_json this (Some json)) h, w2))))
  ∧ (truthy secondary_ip = true →
     template !! "secondary" = None →
     create get_json_template element_entry_point (this, w)
     = (Raise (KeyError (VStr "secondary")), (with_json this (Some filled), w1))).
Proof.
  intros Htemplate this filled. subst this filled. unfold init.
  split; [intros h w2 Hentry; split |].
  - intros Hnone. rewrite Hnone.
    unfold create, bind at 1, world. cbn [fst snd]. rewrite Htemplate.
    unfold bind, modify, self, json_setitem, _fetch_href, bind, self, world, modify.
    cbn. rewrite Hentry. by destruct comment.
  - intros items Hsome Hitems. rewrite Hsome.
    unfold create, bind at 1, world. cbn [fst snd]. rewrite Htemplate.
    unfold bind, modify, self, json_setitem, secondary_loop, secondary_append,
      _fetch_href, bind, self, world, modify.
    cbn. rewrite !lookup_insert_ne by done. rewrite Hitems. cbn.
    rewrite Hentry. by destruct comment.
  - intros Hsome Hmissing. rewrite Hsome.
    unfold create, bind at 1, world. cbn [fst snd]. rewrite Htemplate.
    unfold bind, modify, self, json_setitem, secondary_loop, secondary_append,
      bind, self, modify.
    cbn. rewrite !lookup_insert_ne by done. rewrite Hmissing.
    by destruct comment.
Qed.

End HostFacts.

Lemma host_create_witness :
  Host.json
    (store_of
       (Host.create HostFixtures.get_json_template HostFixtures.element_entry_point
          (Host.init (VStr "myhost") (VStr "1.1.1.1") (VStr "1.1.1.2") VNone, []))).1
  = Some (<[ "secondary" := VList ([] ++ [VStr "1.1.1.2"]) ]>
            (<[ "comment" := VStr "" ]>
               (<[ "address" := VStr "1.1.1.1" ]>
                  (<[ "name" := VStr "myhost" ]>
                     (list_to_map [("name", VNone); ("address", VNone);
                                   ("comment", VNone); ("secondary", VList [])]))))).
Proof.
  pose proof (proj2 (proj1 (host_create HostFixtures.get_json_template
                              HostFixtures.element_entry_point
                              (VStr "myhost") (VStr "1.1.1.1") (VStr "1.1.1.2") VNone
                              _ [] [] eq_refl)
                       (VStr "http://1.1.1.1/elements/host") ["entry_point"] eq_refl)
                [] eq_refl eq_refl) as Hcreate.
  exact (f_equal (λ r, Host.json (store_of r).1) Hcreate).
Defined.

(** ** Class attributes and the subclasses *)

Section FactoryInheritance.
Import SMCElement.

Lemma getattr_inherited (cls : class) attr v (h : heap) :
  h cls !! attr = None → h SMCElement !! attr = Some v →
  getattr cls attr h = (Return v, h).
Proof.
  intros Hown Hbase. unfold getattr, bind, get. cbn. by rewrite Hown, Hbase.
Qed.

(** What [factory] stores on the base class shows through every
    subclass that has no such attribute of its own; [factory] on a
    subclass then changes what that subclass shows and leaves the base
    class as it was. *)
Theorem factory_on_subclass (sub : class) (a b : args) (h : heap) :
  sub ≠ SMCElement →
  (∀ attr, h sub !! attr = None) →
  let h1 := store_of (factory SMCElement a h) in
  let h2 := store_of (factory sub b h1) in
  Forall (λ '(attr, v), getattr sub attr h1 = (Return v, h1)) (assigned a)
  ∧ Forall (λ '(attr, v), getattr sub attr h2 = (Return v, h2)) (assigned b)
  ∧ Forall (λ '(attr, v), getattr SMCElement attr h2 = (Return v, h2)) (assigned a).
Proof.
  intros Hsub Hnone h1 h2.
  destruct (factory_run SMCElement a h) as (_ & Hbase1 & Hother1).
  destruct (factory_run sub b h1) as (_ & Hsub2 & Hother2).
  fold h1 in Hbase1, Hother1. fold h2 in Hsub2, Hother2.
  assert (∀ attr, h1 sub !! attr = None) as Hnone1.
  { intros attr. by rewrite Hother1. }
  assert (h2 SMCElement = h1 SMCElement) as Hbase2 by (apply Hother2; congruence).
  split; [| split]; unfold assigned.
  - repeat (apply Forall_cons; split;
            [apply getattr_inherited; [apply Hnone1 | rewrite Hbase1; by simplify_map_eq] |]).
    constructor.
  - repeat (apply Forall_cons; split;
            [apply getattr_own; rewrite Hsub2; by simplify_map_eq |]).
    constructor.
  - repeat (apply Forall_cons; split;
            [apply getattr_own; rewrite Hbase2, Hbase1; by simplify_map_eq |]).
    constructor.
Qed.

End FactoryInheritance.

Lemma factory_on_subclass_witness :
  let a := {| SMCElement.name := VStr "a"; SMCElement.href := VStr "/elements/host/1";
              SMCElement.etag := VStr "v1"; SMCElement._type := VStr "host";
              SMCElement.json := VNone; SMCElement.params := VNone |} in
  let b := {| SMCElement.name := VStr "b"; SMCElement.href := VStr "/elements/host/2";
              SMCElement.etag := VStr "v2"; SMCElement._type := VStr "host";
              SMCElement.json := VNone; SMCElement.params := VNone |} in
  let h1 := store_of (SMCElement.factory SMCElement.SMCElement a SMCElement.initial) in
  let h2 := store_of (SMCElement.factory SMCElement.Host b h1) in
  Forall (λ '(attr, v), SMCElement.getattr SMCElement.SMCElement attr h2 = (Return v, h2))
         (SMCElement.assigned a).
Proof.
  intros a b h1 h2.
  apply (proj2 (proj2 (factory_on_subclass SMCElement.Host a b SMCElement.initial
                         ltac:(discriminate) (λ attr, lookup_empty attr)))).
Defined.
